(** * Appointment routes of the booking module

    A shallow embedding of [src/modules/booking/routes/booking.js]: the
    Express handlers that list, create, reschedule and delete appointments
    and report a provider's booked slots, over the four Mongoose
    collections they touch.

    Conventions of the embedding.
    - A collection is a finite map from [_id] to document ([gmap]): Mongo
      keeps [_id] unique inside a collection.
    - A JS [Date] is the number of milliseconds since the epoch ([Z]); the
      calendar functions [getDay] and [setDate (getDate () + 1)] are those of
      a server whose local time is UTC.
    - A query parameter is [None] when it is absent or empty (both falsy in
      JS) and otherwise carries the value that [new Date] or Mongoose casts
      the text to.
    - Every [await] of a model operation may reject. Which one does is not
      decided by the handler, so the world carries a schedule of rejections
      that the awaits consume in program order, and the handler's
      [try]/[catch] is modelled on top of it. *)

From stdpp Require Import base option list strings gmap fin_maps sorting.
From Stdlib Require Import ZArith Lia.

Local Open Scope Z_scope.

(** ** Documents *)

Abbreviation Id := N.
Abbreviation Date := Z.

Record Appointment := mkAppointment {
  practiceId : Id;
  patientId : Id;
  providerId : Id;
  appointmentDate : Date;
  startTime : string;
  endTime : string;
  status : string;
}.

(** [req.body] of a create request; [status] may be left out. *)
Record CreateBody := mkCreateBody {
  body_practiceId : Id;
  body_patientId : Id;
  body_providerId : Id;
  body_appointmentDate : Date;
  body_startTime : string;
  body_endTime : string;
  body_status : option string;
}.

Record PatientStats := mkPatientStats {
  nextAppointment : option Date;
  cancelledAppointments : option nat;
}.

Record Patient := mkPatient {
  patient_firstName : string;
  patient_lastName : string;
  patient_stats : PatientStats;
}.

Record DaySchedule := mkDaySchedule {
  available : bool;
  hours : string;
}.

(** [stats] of a provider or of a practice. *)
Record Stats := mkStats {
  totalAppointments : option nat;
}.

Record Provider := mkProvider {
  provider_firstName : string;
  provider_lastName : string;
  fullName : string;
  schedule : gmap string DaySchedule;
  provider_stats : Stats;
}.

Record Practice := mkPractice {
  practiceName : string;
  practice_stats : Stats;
}.

(** ** The world: four collections, the rejection schedule, the log *)

Inductive Collection := Practices | Patients | Providers | Appointments.

(** The model operations a handler awaits, as they appear in the log. *)
Inductive Op :=
  | FindById (c : Collection) (id : Id)
  | Find
  | FindOne
  | Save
  | CountDocuments
  | UpdateStats (c : Collection) (id : Id)
  | Reschedule (id : Id)
  | FindByIdAndDelete (id : Id).

Record World := mkWorld {
  practices : gmap Id Practice;
  patients : gmap Id Patient;
  providers : gmap Id Provider;
  appointments : gmap Id Appointment;
  (** one entry per awaited operation still to come: [Some m] makes that
      operation reject with an error whose message is [m]; past the end of
      the list nothing rejects *)
  faults : list (option string);
  (** the operations awaited so far, oldest first *)
  trace : list Op;
}.

Definition set_practices (m : gmap Id Practice) (w : World) : World :=
  mkWorld m (patients w) (providers w) (appointments w) (faults w) (trace w).
Definition set_patients (m : gmap Id Patient) (w : World) : World :=
  mkWorld (practices w) m (providers w) (appointments w) (faults w) (trace w).
Definition set_providers (m : gmap Id Provider) (w : World) : World :=
  mkWorld (practices w) (patients w) m (appointments w) (faults w) (trace w).
Definition set_appointments (m : gmap Id Appointment) (w : World) : World :=
  mkWorld (practices w) (patients w) (providers w) m (faults w) (trace w).
Definition set_faults (fs : list (option string)) (w : World) : World :=
  mkWorld (practices w) (patients w) (providers w) (appointments w) fs (trace w).
Definition log (op : Op) (w : World) : World :=
  mkWorld (practices w) (patients w) (providers w) (appointments w) (faults w)
          (trace w ++ [op]).

(** No awaited operation rejects. *)
Definition healthy (w : World) : Prop := faults w = [].

(** ** Promises, [await] and [try]/[catch] *)

Inductive outcome (A : Type) :=
  | Resolved (a : A)
  | Rejected (message : string).
Arguments Resolved {A} a.
Arguments Rejected {A} message.

Definition Async (A : Type) : Type := World → outcome A * World.

Definition resolve {A} (a : A) : Async A := λ w, (Resolved a, w).

Definition andThen {A B} (m : Async A) (k : A → Async B) : Async B :=
  λ w, match m w with
       | (Resolved a, w') => k a w'
       | (Rejected e, w') => (Rejected e, w')
       end.

Definition tryCatch {A} (body : Async A) (handler : string → Async A) : Async A :=
  λ w, match body w with
       | (Resolved a, w') => (Resolved a, w')
       | (Rejected e, w') => handler e w'
       end.

Notation "'await!' x := m 'in' k" := (andThen m (λ x, k))
  (at level 10, x pattern, m at level 100, k at level 200, only parsing).

(** [await op run]: the operation is logged, then either rejects as the
    schedule says or runs against the collections. *)
Definition await {A} (op : Op) (run : World → A * World) : Async A :=
  λ w, let w1 := log op w in
       match faults w1 with
       | Some e :: rest => (Rejected e, set_faults rest w1)
       | None :: rest =>
           let (a, w2) := run (set_faults rest w1) in (Resolved a, w2)
       | [] => let (a, w2) := run w1 in (Resolved a, w2)
       end.

(** ** Mongo query objects over appointments *)

Inductive StatusCond :=
  | StatusIs (s : string)            (* status: s *)
  | StatusNe (s : string)            (* status: { $ne: s } *)
  | StatusNin (l : list string).     (* status: { $nin: l } *)

Inductive DateCond :=
  | DateIs (d : Date)                (* appointmentDate: d *)
  | DateGteLt (lo hi : Date)         (* { $gte: lo, $lt: hi } *)
  | DateGteLte (lo hi : Date).       (* { $gte: lo, $lte: hi } *)

Record Filter := mkFilter {
  q_practiceId : option Id;
  q_patientId : option Id;
  q_providerId : option Id;
  q_status : option StatusCond;
  q_appointmentDate : option DateCond;
  q_startTime : option string;
  q_id_ne : option Id;               (* _id: { $ne: id } *)
}.

Definition optb {A} (o : option A) (p : A → bool) : bool :=
  match o with None => true | Some a => p a end.

Definition statusHolds (c : StatusCond) (s : string) : bool :=
  match c with
  | StatusIs s' => bool_decide (s = s')
  | StatusNe s' => negb (bool_decide (s = s'))
  | StatusNin l => negb (bool_decide (s ∈ l))
  end.

Definition dateHolds (c : DateCond) (d : Date) : bool :=
  match c with
  | DateIs d' => bool_decide (d = d')
  | DateGteLt lo hi => (lo <=? d) && (d <? hi)
  | DateGteLte lo hi => (lo <=? d) && (d <=? hi)
  end.

Definition matches (f : Filter) (doc : Id * Appointment) : bool :=
  let (id, a) := doc in
  optb (q_practiceId f) (λ x, bool_decide (practiceId a = x))
  && optb (q_patientId f) (λ x, bool_decide (patientId a = x))
  && optb (q_providerId f) (λ x, bool_decide (providerId a = x))
  && optb (q_status f) (λ c, statusHolds c (status a))
  && optb (q_appointmentDate f) (λ c, dateHolds c (appointmentDate a))
  && optb (q_startTime f) (λ x, bool_decide (startTime a = x))
  && optb (q_id_ne f) (λ x, negb (bool_decide (id = x))).

(** The documents of the collection a query selects. *)
Definition select (f : Filter) (m : gmap Id Appointment) : list (Id * Appointment) :=
  List.filter (matches f) (map_to_list m).

(** ** Model operations *)

Definition Practice_findById (id : Id) : Async (option Practice) :=
  await (FindById Practices id) (λ w, (practices w !! id, w)).

Definition Patient_findById (id : Id) : Async (option Patient) :=
  await (FindById Patients id) (λ w, (patients w !! id, w)).

Definition Provider_findById (id : Id) : Async (option Provider) :=
  await (FindById Providers id) (λ w, (providers w !! id, w)).

Definition Appointment_findById (id : Id) : Async (option Appointment) :=
  await (FindById Appointments id) (λ w, (appointments w !! id, w)).

Definition Appointment_findOne (f : Filter) : Async (option (Id * Appointment)) :=
  await FindOne (λ w, (head (select f (appointments w)), w)).

Definition Appointment_countDocuments (f : Filter) : Async nat :=
  await CountDocuments (λ w, (length (select f (appointments w)), w)).

Definition Appointment_findByIdAndDelete (id : Id) : Async (option Appointment) :=
  await (FindByIdAndDelete id)
        (λ w, (appointments w !! id,
               set_appointments (delete id (appointments w)) w)).

(** Modelled from the spec: the Appointment schema is not part of the
    sources; a body without [status] gets the first status the spec
    enumerates. *)
Definition defaultStatus : string := "scheduled".

(** [new Appointment(req.body)] *)
Definition new_Appointment (b : CreateBody) : Appointment :=
  mkAppointment (body_practiceId b) (body_patientId b) (body_providerId b)
                (body_appointmentDate b) (body_startTime b) (body_endTime b)
                (default defaultStatus (body_status b)).

(** [appointment.save()] of a new document: it is stored under an [_id]
    that no document of the collection has. *)
Definition Appointment_save (a : Appointment) : Async (Id * Appointment) :=
  await Save
        (λ w, let id := fresh (dom (appointments w)) in
              ((id, a), set_appointments (<[id := a]> (appointments w)) w)).

(** [{ ...old, ...upd }] on one counter: a counter that is passed replaces
    the stored one. *)
Definition overwrite {A} (old upd : option A) : option A :=
  match upd with Some x => Some x | None => old end.

Definition mergePatientStats (old upd : PatientStats) : PatientStats :=
  mkPatientStats (overwrite (nextAppointment old) (nextAppointment upd))
                 (overwrite (cancelledAppointments old) (cancelledAppointments upd)).

Definition mergeStats (old upd : Stats) : Stats :=
  mkStats (overwrite (totalAppointments old) (totalAppointments upd)).

(** Modelled from the spec: [updateStats] is a method of the Patient model,
    which is not part of the sources. The spec calls [stats] a denormalized
    counter structure updated as a side effect of appointment operations:
    the counters passed are written over the document's [stats], the others
    are kept, and the document is saved. *)
Definition Patient_updateStats (doc : Id * Patient) (upd : PatientStats) : Async unit :=
  let (id, p) := doc in
  await (UpdateStats Patients id)
        (λ w, let p' := mkPatient (patient_firstName p) (patient_lastName p)
                                  (mergePatientStats (patient_stats p) upd) in
              (tt, set_patients (<[id := p']> (patients w)) w)).

(** Modelled from the spec: [updateStats] of the Provider model, which is
    not part of the sources; as for the patient. *)
Definition Provider_updateStats (doc : Id * Provider) (upd : Stats) : Async unit :=
  let (id, p) := doc in
  await (UpdateStats Providers id)
        (λ w, let p' := mkProvider (provider_firstName p) (provider_lastName p)
                                   (fullName p) (schedule p)
                                   (mergeStats (provider_stats p) upd) in
              (tt, set_providers (<[id := p']> (providers w)) w)).

(** Modelled from the spec: [updateStats] of the Practice model, which is
    not part of the sources; as for the patient. *)
Definition Practice_updateStats (doc : Id * Practice) (upd : Stats) : Async unit :=
  let (id, p) := doc in
  await (UpdateStats Practices id)
        (λ w, let p' := mkPractice (practiceName p)
                                   (mergeStats (practice_stats p) upd) in
              (tt, set_practices (<[id := p']> (practices w)) w)).

(** The appointment with a new date, start and end time. *)
Definition moveTo (a : Appointment) (newDate : Date) (newStartTime newEndTime : string)
    : Appointment :=
  mkAppointment (practiceId a) (patientId a) (providerId a)
                newDate newStartTime newEndTime (status a).

(** Modelled from the spec: [reschedule] is a method of the Appointment
    model, which is not part of the sources; the spec says the route
    delegates the field mutation to it. The document takes the new date,
    start and end time and is saved. *)
Definition Appointment_reschedule (doc : Id * Appointment)
    (newDate : Date) (newStartTime newEndTime reason : string)
    : Async (Id * Appointment) :=
  let (id, a) := doc in
  await (Reschedule id)
        (λ w, let a' := moveTo a newDate newStartTime newEndTime in
              ((id, a'), set_appointments (<[id := a']> (appointments w)) w)).

(** ** Sorting and populating the result of [find] *)

(** [.sort({ appointmentDate: 1, startTime: 1 })]: by date, then by start
    time in the order of the strings' characters. *)
Definition byDateThenStart (x y : Id * Appointment) : Prop :=
  appointmentDate x.2 < appointmentDate y.2
  ∨ (appointmentDate x.2 = appointmentDate y.2
     ∧ String.leb (startTime x.2) (startTime y.2) = true).

Global Instance byDateThenStart_dec x y : Decision (byDateThenStart x y).
Proof. unfold byDateThenStart. apply _. Defined.

(** What [populate] puts in place of a reference: the selected fields of the
    referenced document, or nothing when it does not exist. *)
Record Listed := mkListed {
  listed_id : Id;
  listed : Appointment;
  listed_patient : option (string * string);     (* firstName lastName *)
  listed_provider : option (string * string);    (* firstName lastName *)
  listed_practice : option string;               (* practiceName *)
}.

Definition populate (w : World) (doc : Id * Appointment) : Listed :=
  let (id, a) := doc in
  mkListed id a
    ((λ p, (patient_firstName p, patient_lastName p)) <$> patients w !! patientId a)
    ((λ p, (provider_firstName p, provider_lastName p)) <$> providers w !! providerId a)
    (practiceName <$> practices w !! practiceId a).

Definition unpopulate (l : Listed) : Id * Appointment := (listed_id l, listed l).

(** [Appointment.find(filters).populate(..).populate(..).populate(..).sort(..)],
    one awaited query. *)
Definition Appointment_find_sorted (f : Filter) : Async (list Listed) :=
  await Find
        (λ w, (populate w <$> merge_sort byDateThenStart (select f (appointments w)), w)).

(** [Appointment.find(..).select('startTime endTime')] *)
Definition Appointment_find_times (f : Filter) : Async (list (string * string)) :=
  await Find
        (λ w, ((λ doc : Id * Appointment, (startTime doc.2, endTime doc.2))
                 <$> select f (appointments w), w)).

(** ** Dates *)

Definition msPerDay : Z := 86400000.

(** The last instant a JS [Date] can hold: 8.64e15 ms after the epoch. *)
Definition maxDate : Z := 8640000000000000.

(** [nextDay.setDate(nextDay.getDate() + 1)], for a date whose next day is
    still a date ([d + msPerDay <= maxDate]); past that JS gives an invalid
    date, which the embedding does not have, and the statements about the
    day of a date carry that bound. *)
Definition nextDay (d : Date) : Date := d + msPerDay.

(** [getDay()]: 0 is Sunday; the epoch was a Thursday. *)
Definition getDay (d : Date) : nat := Z.to_nat ((d `div` msPerDay + 4) `mod` 7).

Definition days : list string :=
  ["sunday"; "monday"; "tuesday"; "wednesday"; "thursday"; "friday"; "saturday"].

(** ** Responses *)

Inductive Data :=
  | DataList (l : list Listed)
  | DataAppointment (doc : Id * Appointment).

Record Body := mkBody {
  success : bool;
  count : option nat;
  data : option Data;
  message : option string;
  error : option string;
  details : option string;
  availableSlots : option (list string);
  body_date : option Date;
  body_provider : option string;
  body_schedule : option DaySchedule;
  bookedTimes : option (list string);
}.

Record Response := mkResponse {
  code : nat;
  body : Body;
}.

(** [{ success: false, error: e }] and [{ success: false, error: e, details: d }] *)
Definition failure (e : string) : Body :=
  mkBody false None None None (Some e) None None None None None None.
Definition failureWith (e d : string) : Body :=
  mkBody false None None None (Some e) (Some d) None None None None None.

(** [{ success: true, message: m }] and [{ success: true, message: m, data: d }] *)
Definition done_ (m : string) : Body :=
  mkBody true None None (Some m) None None None None None None None.
Definition doneWith (m : string) (d : Data) : Body :=
  mkBody true None (Some d) (Some m) None None None None None None None.

(** [res.status(c).json(b)]; [res.json(b)] answers with 200. *)
Definition json (c : nat) (b : Body) : Async Response := resolve (mkResponse c b).

Definition throw {A} (e : string) : Async A := λ w, (Rejected e, w).

(** ** The handlers *)

(** [req.query] of the list route. *)
Record ListQuery := mkListQuery {
  query_practiceId : option Id;
  query_patientId : option Id;
  query_providerId : option Id;
  query_status : option string;
  query_date : option Date;
  query_startDate : option Date;
  query_endDate : option Date;
}.

(** The [filters] object the list route builds from the query. *)
Definition listFilters (q : ListQuery) : Filter :=
  mkFilter (query_practiceId q) (query_patientId q) (query_providerId q)
           (StatusIs <$> query_status q)
           (match query_date q with
            | Some targetDate => Some (DateGteLt targetDate (nextDay targetDate))
            | None =>
                match query_startDate q, query_endDate q with
                | Some startDate, Some endDate => Some (DateGteLte startDate endDate)
                | _, _ => None
                end
            end)
           None None.

(** [router.get('/')] *)
Definition getAppointments (q : ListQuery) : Async Response :=
  tryCatch
    (await! appointments := Appointment_find_sorted (listFilters q) in
     json 200 (mkBody true (Some (length appointments)) (Some (DataList appointments))
                      None None None None None None None None))
    (λ e, json 500 (failureWith "Failed to fetch appointments" e)).

(** The conflict query of the create route. *)
Definition conflictFilter (provider : Id) (date : Date) (start : string) : Filter :=
  mkFilter None None (Some provider) (Some (StatusNin ["cancelled"; "no-show"]))
           (Some (DateIs date)) (Some start) None.

(** [router.post('/')] *)
Definition createAppointment (b : CreateBody) : Async Response :=
  tryCatch
    (await! practice := Practice_findById (body_practiceId b) in
     match practice with
     | None => json 404 (failure "Practice not found")
     | Some practice =>
     await! patient := Patient_findById (body_patientId b) in
     match patient with
     | None => json 404 (failure "Patient not found")
     | Some patient =>
     await! provider := Provider_findById (body_providerId b) in
     match provider with
     | None => json 404 (failure "Provider not found")
     | Some provider =>
     await! conflict :=
       Appointment_findOne
         (conflictFilter (body_providerId b) (body_appointmentDate b) (body_startTime b)) in
     match conflict with
     | Some _ => json 400 (failure "Time slot already booked for this provider")
     | None =>
     await! appointment := Appointment_save (new_Appointment b) in
     await! _ := Patient_updateStats (body_patientId b, patient)
                   (mkPatientStats (Some (body_appointmentDate b)) None) in
     await! n := Appointment_countDocuments
                   (mkFilter None None (Some (body_providerId b))
                             (Some (StatusNe "cancelled")) None None None) in
     await! _ := Provider_updateStats (body_providerId b, provider) (mkStats (Some n)) in
     await! m := Appointment_countDocuments
                   (mkFilter (Some (body_practiceId b)) None None None None None None) in
     await! _ := Practice_updateStats (body_practiceId b, practice) (mkStats (Some m)) in
     json 201 (doneWith "Appointment created successfully" (DataAppointment appointment))
     end end end end)
    (λ e, json 500 (failureWith "Failed to create appointment" e)).

(** [req.body] of the reschedule route. *)
Record RescheduleBody := mkRescheduleBody {
  newDate : Date;
  newStartTime : string;
  newEndTime : string;
  reason : string;
}.

(** The conflict query of the reschedule route: that of create, and
    [_id: { $ne: appointment._id }]. *)
Definition rescheduleFilter (provider : Id) (date : Date) (start : string) (self : Id)
    : Filter :=
  mkFilter None None (Some provider) (Some (StatusNin ["cancelled"; "no-show"]))
           (Some (DateIs date)) (Some start) (Some self).

(** [router.post('/:id/reschedule')] *)
Definition rescheduleAppointment (id : Id) (b : RescheduleBody) : Async Response :=
  tryCatch
    (await! appointment := Appointment_findById id in
     match appointment with
     | None => json 404 (failure "Appointment not found")
     | Some appointment =>
     await! conflict :=
       Appointment_findOne
         (rescheduleFilter (providerId appointment) (newDate b) (newStartTime b) id) in
     match conflict with
     | Some _ => json 400 (failure "New time slot already booked")
     | None =>
     await! appointment :=
       Appointment_reschedule (id, appointment)
                              (newDate b) (newStartTime b) (newEndTime b) (reason b) in
     json 200 (doneWith "Appointment rescheduled" (DataAppointment appointment))
     end end)
    (λ e, json 500 (failureWith "Failed to reschedule appointment" e)).

(** [router.get('/available-slots/:providerId')]. Reading [.available] of a
    day the schedule does not have throws a [TypeError]. *)
Definition getAvailableSlots (providerId : Id) (date : option Date) : Async Response :=
  tryCatch
    (match date with
     | None => json 400 (failure "Date is required")
     | Some targetDate =>
     await! provider := Provider_findById providerId in
     match provider with
     | None => json 404 (failure "Provider not found")
     | Some provider =>
     let dayOfWeek := getDay targetDate in
     match days !! dayOfWeek ≫= λ dayName, schedule provider !! dayName with
     | None => throw "Cannot read properties of undefined (reading 'available')"
     | Some sched =>
     if negb (available sched) then
       json 200 (mkBody true None None (Some "Provider not available on this day")
                        None None (Some []) None None None None)
     else
       await! bookedAppointments :=
         Appointment_find_times
           (mkFilter None None (Some providerId)
                     (Some (StatusNin ["cancelled"; "no-show"]))
                     (Some (DateGteLt targetDate (nextDay targetDate))) None None) in
       let bookedTimes := fst <$> bookedAppointments in
       json 200 (mkBody true None None (Some "Check booked times against schedule")
                        None None None (Some targetDate) (Some (fullName provider))
                        (Some sched) (Some bookedTimes))
     end end end)
    (λ e, json 500 (failureWith "Failed to fetch available slots" e)).

(** [router.delete('/:id')] *)
Definition deleteAppointment (id : Id) : Async Response :=
  tryCatch
    (await! appointment := Appointment_findByIdAndDelete id in
     match appointment with
     | None => json 404 (failure "Appointment not found")
     | Some _ => json 200 (done_ "Appointment deleted successfully")
     end)
    (λ e, json 500 (failureWith "Failed to delete appointment" e)).

(** ** The update and cancel routes *)

(** An awaited operation that the log has no name for: it takes its turn in
    the schedule of rejections and leaves the log as it is. *)
Definition awaitUnlogged {A} (run : World → A * World) : Async A :=
  λ w, match faults w with
       | Some e :: rest => (Rejected e, set_faults rest w)
       | None :: rest =>
           let (a, w2) := run (set_faults rest w) in (Resolved a, w2)
       | [] => let (a, w2) := run w in (Resolved a, w2)
       end.

(** [req.body] of the update route: the fields to set; a field that is left
    out is [None]. *)
Record UpdateBody := mkUpdateBody {
  upd_practiceId : option Id;
  upd_patientId : option Id;
  upd_providerId : option Id;
  upd_appointmentDate : option Date;
  upd_startTime : option string;
  upd_endTime : option string;
  upd_status : option string;
}.

(** [{ $set: req.body }] on a document. *)
Definition applySet (b : UpdateBody) (a : Appointment) : Appointment :=
  mkAppointment (default (practiceId a) (upd_practiceId b))
                (default (patientId a) (upd_patientId b))
                (default (providerId a) (upd_providerId b))
                (default (appointmentDate a) (upd_appointmentDate b))
                (default (startTime a) (upd_startTime b))
                (default (endTime a) (upd_endTime b))
                (default (status a) (upd_status b)).

(** [Appointment.findByIdAndUpdate(id, { $set: body }, { new: true, .. })]:
    the updated document, or [null] when the id is not in the collection. *)
Definition Appointment_findByIdAndUpdate (id : Id) (b : UpdateBody)
    : Async (option (Id * Appointment)) :=
  awaitUnlogged
    (λ w, match appointments w !! id with
          | Some a =>
              let a' := applySet b a in
              (Some (id, a'), set_appointments (<[id := a']> (appointments w)) w)
          | None => (None, w)
          end).

(** [router.put('/:id')] *)
Definition updateAppointment (id : Id) (b : UpdateBody) : Async Response :=
  tryCatch
    (await! appointment := Appointment_findByIdAndUpdate id b in
     match appointment with
     | None => json 404 (failure "Appointment not found")
     | Some appointment =>
         json 200 (doneWith "Appointment updated successfully"
                            (DataAppointment appointment))
     end)
    (λ e, json 500 (failureWith "Failed to update appointment" e)).

(** [req.body] of the cancel route. *)
Record CancelBody := mkCancelBody {
  cancelledBy : string;
  cancelReason : string;
}.

(** Modelled from the spec: [cancel] is a method of the Appointment model,
    which is not part of the sources; the spec has it set the status (and
    cancellation metadata, which the documents here do not carry). The
    document gets the status 'cancelled' and is saved. *)
Definition Appointment_cancel (doc : Id * Appointment) (by_ why : string)
    : Async (Id * Appointment) :=
  let (id, a) := doc in
  awaitUnlogged
    (λ w, let a' := mkAppointment (practiceId a) (patientId a) (providerId a)
                                  (appointmentDate a) (startTime a) (endTime a)
                                  "cancelled" in
          ((id, a'), set_appointments (<[id := a']> (appointments w)) w)).

(** [(patient.stats.cancelledAppointments || 0) + 1] *)
Definition oneMoreCancelled (p : Patient) : nat :=
  (default 0 (cancelledAppointments (patient_stats p)) + 1)%nat.

(** [router.post('/:id/cancel')] *)
Definition cancelAppointment (id : Id) (b : CancelBody) : Async Response :=
  tryCatch
    (await! appointment := Appointment_findById id in
     match appointment with
     | None => json 404 (failure "Appointment not found")
     | Some appointment =>
     await! appointment :=
       Appointment_cancel (id, appointment) (cancelledBy b) (cancelReason b) in
     await! patient := Patient_findById (patientId appointment.2) in
     await! _ :=
       match patient with
       | Some patient =>
           Patient_updateStats (patientId appointment.2, patient)
             (mkPatientStats None (Some (oneMoreCancelled patient)))
       | None => resolve tt
       end in
     json 200 (doneWith "Appointment cancelled" (DataAppointment appointment))
     end)
    (λ e, json 500 (failureWith "Failed to cancel appointment" e)).

(** ** A small clinic to run the handlers on *)

Module Clinic.

Definition week (sundayOpen : bool) : gmap string DaySchedule :=
  list_to_map
    [("sunday", mkDaySchedule sundayOpen "10:00-12:00");
     ("monday", mkDaySchedule true "09:00-17:00");
     ("tuesday", mkDaySchedule true "09:00-17:00");
     ("wednesday", mkDaySchedule true "09:00-17:00");
     ("thursday", mkDaySchedule true "09:00-17:00");
     ("friday", mkDaySchedule true "09:00-13:00");
     ("saturday", mkDaySchedule false "closed")]%string.

Definition drLee : Provider :=
  mkProvider "Sam" "Lee" "Dr. Sam Lee" (week false) (mkStats None).
Definition ana : Patient := mkPatient "Ana" "Diaz" (mkPatientStats None None).
Definition brooklyn : Practice := mkPractice "Brooklyn Family Care" (mkStats None).

(** 2024-01-10T00:00:00Z, a Wednesday *)
Definition jan10 : Date := 1704844800000.
(** 2024-01-14T00:00:00Z, a Sunday *)
Definition jan14 : Date := 1705190400000.

(** An appointment of patient 2 with provider 3 at practice 1. *)
Definition visit (d : Date) (t t' st : string) : Appointment :=
  mkAppointment 1%N 2%N 3%N d t t' st.

Definition booked : gmap Id Appointment :=
  list_to_map [(10%N, visit jan10 "09:00" "09:30" "scheduled");
               (11%N, visit jan10 "10:00" "10:30" "cancelled");
               (12%N, visit jan14 "09:00" "09:30" "completed");
               (13%N, visit jan10 "08:30" "09:00" "no-show")].

(** The clinic, with the rejections [fs] ahead and nothing awaited yet. *)
Definition world (fs : list (option string)) : World :=
  mkWorld {[ 1%N := brooklyn ]} {[ 2%N := ana ]} {[ 3%N := drLee ]} booked fs [].

(** A half-hour visit of patient 2 with provider 3, status left out. *)
Definition request (practice : Id) (d : Date) (t t' : string) : CreateBody :=
  mkCreateBody practice 2%N 3%N d t t' None.

End Clinic.

(** ** Vocabulary of the statements *)

(** The appointment is at the slot (provider, date, start time). *)
Definition atSlot (provider : Id) (d : Date) (t : string) (a : Appointment) : Prop :=
  providerId a = provider ∧ appointmentDate a = d ∧ startTime a = t.

(** The appointment's status is neither 'cancelled' nor 'no-show'. *)
Definition blocking (a : Appointment) : Prop :=
  status a ≠ "cancelled" ∧ status a ≠ "no-show".

(** The four collections of [w'] are those of [w]. *)
Definition sameStores (w w' : World) : Prop :=
  practices w' = practices w ∧ patients w' = patients w
  ∧ providers w' = providers w ∧ appointments w' = appointments w.

(** The number of documents of the collection that satisfy [P]. *)
Definition countWhere (P : Appointment → Prop) `{∀ a, Decision (P a)}
    (m : gmap Id Appointment) : nat :=
  length (filter (λ doc : Id * Appointment, P doc.2) (map_to_list m)).

(** The appointment passes the equality filters of a list query. *)
Definition selectedBy (q : ListQuery) (a : Appointment) : Prop :=
  (∀ x, query_practiceId q = Some x → practiceId a = x)
  ∧ (∀ x, query_patientId q = Some x → patientId a = x)
  ∧ (∀ x, query_providerId q = Some x → providerId a = x)
  ∧ (∀ s, query_status q = Some s → status a = s).

(** The bodies the routes answer with. *)
Definition slotTaken : Response :=
  mkResponse 400 (failure "Time slot already booked for this provider").
Definition created (doc : Id * Appointment) : Response :=
  mkResponse 201 (doneWith "Appointment created successfully" (DataAppointment doc)).
Definition createFailed (e : string) : Response :=
  mkResponse 500 (failureWith "Failed to create appointment" e).
Definition newSlotTaken : Response :=
  mkResponse 400 (failure "New time slot already booked").
Definition rescheduled (doc : Id * Appointment) : Response :=
  mkResponse 200 (doneWith "Appointment rescheduled" (DataAppointment doc)).
Definition notAvailable : Response :=
  mkResponse 200 (mkBody true None None (Some "Provider not available on this day")
                         None None (Some []) None None None None).
Definition appointmentNotFound : Response :=
  mkResponse 404 (failure "Appointment not found").
Definition deleted : Response :=
  mkResponse 200 (done_ "Appointment deleted successfully").
Definition listing (l : list Listed) : Response :=
  mkResponse 200 (mkBody true (Some (length l)) (Some (DataList l))
                         None None None None None None None None).

(** The operations a create request awaits up to the save, and the five
    after it: the three statistics updates and the two counts that feed
    them. *)
Definition primaryOps (b : CreateBody) : list Op :=
  [FindById Practices (body_practiceId b); FindById Patients (body_patientId b);
   FindById Providers (body_providerId b); FindOne; Save].
Definition statsOps (b : CreateBody) : list Op :=
  [UpdateStats Patients (body_patientId b); CountDocuments;
   UpdateStats Providers (body_providerId b); CountDocuments;
   UpdateStats Practices (body_practiceId b)].

(** The ids of the documents of a list answer, in the order of the answer. *)
Definition idsOf (o : outcome Response) : list Id :=
  match o with
  | Resolved r =>
      match data (body r) with
      | Some (DataList l) => listed_id <$> l
      | _ => []
      end
  | Rejected _ => []
  end.

(** The documents a list query selects, in the order of the answer. *)
Definition listedDocs (q : ListQuery) (w : World) : list (Id * Appointment) :=
  merge_sort byDateThenStart (select (listFilters q) (appointments w)).

(** The list query without its range bounds. *)
Definition withoutRange (q : ListQuery) : ListQuery :=
  mkListQuery (query_practiceId q) (query_patientId q) (query_providerId q)
              (query_status q) (query_date q) None None.

(** ** Vocabulary of the further statements *)

(** No two blocking appointments of the collection share provider, date and
    start time. *)
Definition noDoubleBooking (m : gmap Id Appointment) : Prop :=
  ∀ id1 id2 a1 a2,
    m !! id1 = Some a1 → m !! id2 = Some a2 →
    blocking a1 → blocking a2 →
    atSlot (providerId a1) (appointmentDate a1) (startTime a1) a2 →
    id1 = id2.

(** The envelope of an answer: either a success (200 or 201, no error) or a
    failure (400, 404 or 500, an error and no data). *)
Definition envelope (r : Response) : Prop :=
  (success (body r) = true ∧ error (body r) = None ∧ details (body r) = None
   ∧ (code r = 200 ∨ code r = 201)%nat)
  ∨ (success (body r) = false ∧ is_Some (error (body r)) ∧ data (body r) = None
     ∧ (code r = 400 ∨ code r = 404 ∨ code r = 500)%nat).

Definition updated (doc : Id * Appointment) : Response :=
  mkResponse 200 (doneWith "Appointment updated successfully" (DataAppointment doc)).
Definition cancelled (doc : Id * Appointment) : Response :=
  mkResponse 200 (doneWith "Appointment cancelled" (DataAppointment doc)).
Definition dateRequired : Response := mkResponse 400 (failure "Date is required").
Definition providerNotFound : Response := mkResponse 404 (failure "Provider not found").
Definition internalError (what e : string) : Response :=
  mkResponse 500 (failureWith what e).

(** Update bodies: no field, the three fields of a slot, the status alone. *)
Definition noFields : UpdateBody := mkUpdateBody None None None None None None None.
Definition toSlot (provider : Id) (d : Date) (t : string) : UpdateBody :=
  mkUpdateBody None None (Some provider) (Some d) (Some t) None None.
Definition toStatus (s : string) : UpdateBody :=
  mkUpdateBody None None None None None None (Some s).

(** A create body for the slot of an appointment. *)
Definition atSlotOf (a : Appointment) (b : CreateBody) : Prop :=
  body_providerId b = providerId a ∧ body_appointmentDate b = appointmentDate a
  ∧ body_startTime b = startTime a.

(** The booked appointments the slots route reports for a provider and a
    day. *)
Definition bookedOn (provider : Id) (d : Date) (a : Appointment) : Prop :=
  providerId a = provider ∧ blocking a ∧ d ≤ appointmentDate a < d + msPerDay.

Global Instance bookedOn_dec provider d a : Decision (bookedOn provider d a).
Proof. unfold bookedOn, blocking. apply _. Defined.

(** The query of the slots route, and its answer for a day the provider
    works. *)
Definition slotsFilter (provider : Id) (d : Date) : Filter :=
  mkFilter None None (Some provider) (Some (StatusNin ["cancelled"; "no-show"]))
           (Some (DateGteLt d (nextDay d))) None None.
Definition bookedTimesOf (d : Date) (p : Provider) (s : DaySchedule)
    (times : list string) : Response :=
  mkResponse 200 (mkBody true None None (Some "Check booked times against schedule")
                         None None None (Some d) (Some (fullName p)) (Some s)
                         (Some times)).

(** The create request found its slot free in [m] and stored its appointment:
    [m'] is [m] with the new appointment under an id that [m] did not use. *)
Definition storedBy (b : CreateBody) (m m' : gmap Id Appointment) : Prop :=
  head (select (conflictFilter (body_providerId b) (body_appointmentDate b)
                               (body_startTime b)) m) = None
  ∧ m' = <[fresh (dom m) := new_Appointment b]> m.

(** List queries: no parameter at all, and a query with its date parameters
    replaced by the range from [A] to [B]. *)
Definition noQuery : ListQuery := mkListQuery None None None None None None None.
Definition asRange (q : ListQuery) (A B : Date) : ListQuery :=
  mkListQuery (query_practiceId q) (query_patientId q) (query_providerId q)
              (query_status q) None (Some A) (Some B).

(** The appointment with the status 'cancelled', and the patient with one
    more cancelled appointment counted. *)
Definition asCancelled (a : Appointment) : Appointment :=
  mkAppointment (practiceId a) (patientId a) (providerId a) (appointmentDate a)
                (startTime a) (endTime a) "cancelled".
Definition withOneMoreCancelled (p : Patient) : Patient :=
  mkPatient (patient_firstName p) (patient_lastName p)
            (mkPatientStats (nextAppointment (patient_stats p))
                            (Some (oneMoreCancelled p))).

(** A property of the collections alone, whatever the log and the schedule
    of rejections are. *)
Definition stable (P : World → Prop) : Prop :=
  ∀ w w', sameStores w w' → P w → P w'.

(** From a world with [P], the asynchronous computation resolves to a value
    and a world with [Q], or rejects in a world with [E]. *)
Definition triple {A} (P : World → Prop) (m : Async A)
    (Q : A → World → Prop) (E : World → Prop) : Prop :=
  ∀ w, P w → match m w with
             | (Resolved a, w') => Q a w'
             | (Rejected _, w') => E w'
             end.

(** ** Queries *)

Section Select.
Context (f : Filter) (m : gmap Id Appointment).

Lemma elem_of_select id a :
  (id, a) ∈ select f m ↔ m !! id = Some a ∧ matches f (id, a) = true.
Proof.
  unfold select.
  by rewrite list_elem_of_In, filter_In, <- list_elem_of_In, elem_of_map_to_list.
Qed.

Lemma head_select_None :
  (∀ id a, m !! id = Some a → matches f (id, a) = false) →
  head (select f m) = None.
Proof.
  intros Hno. destruct (select f m) as [|[id a] l] eqn:E; [done|].
  assert (Hin : (id, a) ∈ select f m) by (rewrite E; left).
  apply elem_of_select in Hin as [Hm Hf]. rewrite (Hno _ _ Hm) in Hf. done.
Qed.

Lemma head_select_Some id a :
  m !! id = Some a → matches f (id, a) = true →
  ∃ doc, head (select f m) = Some doc.
Proof.
  intros Hm Hf. assert (Hin : (id, a) ∈ select f m) by by apply elem_of_select.
  destruct (select f m) as [|doc l]; [by apply elem_of_nil in Hin | by exists doc].
Qed.

Lemma NoDup_select : NoDup (select f m).
Proof.
  unfold select. apply NoDup_ListNoDup, List.NoDup_filter, NoDup_ListNoDup.
  apply NoDup_map_to_list.
Qed.
End Select.

Lemma length_filter_bool {A} (p : A → bool) (P : A → Prop) `{∀ x, Decision (P x)}
    (l : list A) :
  (∀ x, p x = true ↔ P x) → length (List.filter p l) = length (filter P l).
Proof.
  intros Hp. induction l as [|x l IH]; [done|]. simpl. rewrite filter_cons.
  destruct (p x) eqn:E, (decide (P x)) as [HP|HP]; simpl; try by rewrite IH.
  - apply Hp in E. done.
  - apply Hp in HP. congruence.
Qed.

Lemma matches_conflictFilter provider d t id a :
  matches (conflictFilter provider d t) (id, a) = true ↔ atSlot provider d t a ∧ blocking a.
Proof.
  unfold matches, conflictFilter, atSlot, blocking; simpl.
  rewrite !andb_true_r, !andb_true_iff, negb_true_iff, !bool_decide_eq_true,
    bool_decide_eq_false.
  rewrite !elem_of_cons, elem_of_nil. tauto.
Qed.

Lemma matches_rescheduleFilter provider d t self id a :
  matches (rescheduleFilter provider d t self) (id, a) = true
  ↔ atSlot provider d t a ∧ blocking a ∧ id ≠ self.
Proof.
  unfold matches, rescheduleFilter, atSlot, blocking; simpl.
  rewrite !andb_true_iff, !negb_true_iff, !bool_decide_eq_true,
    !bool_decide_eq_false.
  rewrite !elem_of_cons, elem_of_nil. tauto.
Qed.

(** A query that no document matches finds nothing. *)
Lemma not_true_false (b : bool) : ¬ b = true → b = false.
Proof. by destruct b. Qed.

(** ** Running a handler while no operation rejects *)

Ltac enter w :=
  let pr := fresh "pr" in let pa := fresh "pa" in let pv := fresh "pv" in
  let ap := fresh "ap" in let fs := fresh "fs" in let tr := fresh "tr" in
  destruct w as [pr pa pv ap fs tr]; unfold healthy, sameStores in *;
  simpl in *; subst.

Ltac run :=
  unfold createAppointment, rescheduleAppointment, getAvailableSlots,
    deleteAppointment, getAppointments, tryCatch, andThen,
    Practice_findById, Patient_findById, Provider_findById,
    Appointment_findById, Appointment_findOne, Appointment_save,
    Appointment_countDocuments, Appointment_findByIdAndDelete,
    Appointment_reschedule, Appointment_find_sorted, Appointment_find_times,
    Patient_updateStats, Provider_updateStats, Practice_updateStats,
    await, json, resolve, throw;
  simpl.

Ltac step H := rewrite H; simpl.

(** ** Create: the referenced entities *)

(** C6. While no operation rejects, a create request looks up the practice,
    then the patient, then the provider; the first of them that is missing
    ends the request with 404 and the message naming it. Only the lookups
    up to that one were awaited (no conflict query, no save), and the four
    collections are as they were. *)
Theorem create_first_missing_entity (b : CreateBody) (w : World) :
  healthy w →
  let r := createAppointment b w in
  (practices w !! body_practiceId b = None →
     r.1 = Resolved (mkResponse 404 (failure "Practice not found"))
     ∧ sameStores w r.2
     ∧ trace r.2 = trace w ++ [FindById Practices (body_practiceId b)])
  ∧ (is_Some (practices w !! body_practiceId b) →
     patients w !! body_patientId b = None →
     r.1 = Resolved (mkResponse 404 (failure "Patient not found"))
     ∧ sameStores w r.2
     ∧ trace r.2 = trace w ++ [FindById Practices (body_practiceId b);
                               FindById Patients (body_patientId b)])
  ∧ (is_Some (practices w !! body_practiceId b) →
     is_Some (patients w !! body_patientId b) →
     providers w !! body_providerId b = None →
     r.1 = Resolved (mkResponse 404 (failure "Provider not found"))
     ∧ sameStores w r.2
     ∧ trace r.2 = trace w ++ [FindById Practices (body_practiceId b);
                               FindById Patients (body_patientId b);
                               FindById Providers (body_providerId b)]).
Proof.
  intros Hh r. subst r. enter w. repeat split.
  all: repeat match goal with H : is_Some _ |- _ => destruct H as [? H] end.
  all: run; repeat match goal with H : _ !! _ = _ |- _ => step H; clear H end.
  all: rewrite <- ?app_assoc; done.
Qed.

Lemma create_first_missing_entity_witness :
  let noPractice := mkCreateBody 9%N 8%N 7%N Clinic.jan10 "09:00" "09:30" None in
  let noPatient := mkCreateBody 1%N 8%N 7%N Clinic.jan10 "09:00" "09:30" None in
  let noProvider := mkCreateBody 1%N 2%N 7%N Clinic.jan10 "09:00" "09:30" None in
  healthy (Clinic.world [])
  ∧ ((createAppointment noPractice (Clinic.world [])).1
     = Resolved (mkResponse 404 (failure "Practice not found"))
     ∧ trace (createAppointment noPractice (Clinic.world [])).2
       = [FindById Practices 9%N])
  ∧ ((createAppointment noPatient (Clinic.world [])).1
     = Resolved (mkResponse 404 (failure "Patient not found"))
     ∧ trace (createAppointment noPatient (Clinic.world [])).2
       = [FindById Practices 1%N; FindById Patients 8%N])
  ∧ ((createAppointment noProvider (Clinic.world [])).1
     = Resolved (mkResponse 404 (failure "Provider not found"))
     ∧ trace (createAppointment noProvider (Clinic.world [])).2
       = [FindById Practices 1%N; FindById Patients 2%N; FindById Providers 7%N]).
Proof.
  intros noPractice noPatient noProvider. split; [reflexivity|].
  destruct (create_first_missing_entity noPractice (Clinic.world []))
    as [Hpractice _]; [reflexivity|].
  destruct (create_first_missing_entity noPatient (Clinic.world []))
    as (_ & Hpatient & _); [reflexivity|].
  destruct (create_first_missing_entity noProvider (Clinic.world []))
    as (_ & _ & Hprovider); [reflexivity|].
  destruct Hpractice as (R1 & _ & T1); [vm_compute; reflexivity|].
  destruct Hpatient as (R2 & _ & T2); [vm_compute; eauto | vm_compute; reflexivity|].
  destruct Hprovider as (R3 & _ & T3);
    [vm_compute; eauto | vm_compute; eauto | vm_compute; reflexivity|].
  split; [by split|]. split; by split.
Defined.

(** ** Create: the slot *)

(** C1, as the claim has it, fails: the slot (provider 3, 2024-01-10,
    09:00) holds a scheduled appointment, and a create request for that slot
    that names a practice that does not exist is answered 404, not 400. *)
Lemma create_conflict_unknown_practice :
  healthy (Clinic.world [])
  ∧ appointments (Clinic.world []) !! 10%N
    = Some (Clinic.visit Clinic.jan10 "09:00" "09:30" "scheduled")
  ∧ atSlot 3%N Clinic.jan10 "09:00" (Clinic.visit Clinic.jan10 "09:00" "09:30" "scheduled")
  ∧ blocking (Clinic.visit Clinic.jan10 "09:00" "09:30" "scheduled")
  ∧ (createAppointment (Clinic.request 9%N Clinic.jan10 "09:00" "09:30") (Clinic.world [])).1
    = Resolved (mkResponse 404 (failure "Practice not found"))
  ∧ (createAppointment (Clinic.request 9%N Clinic.jan10 "09:00" "09:30") (Clinic.world [])).1
    ≠ Resolved slotTaken.
Proof.
  repeat split; try (vm_compute; reflexivity); try discriminate.
Qed.

(** C1, amended. While no operation rejects and the practice, the patient
    and the provider of the request exist: if the collection holds an
    appointment at the request's (provider, date, start time) whose status
    is neither 'cancelled' nor 'no-show', the request is answered 400 "Time
    slot already booked for this provider" and the collections are as they
    were. *)
Theorem create_conflict_rejected (b : CreateBody) (w : World) (id : Id) (a : Appointment) :
  healthy w →
  is_Some (practices w !! body_practiceId b) →
  is_Some (patients w !! body_patientId b) →
  is_Some (providers w !! body_providerId b) →
  appointments w !! id = Some a →
  atSlot (body_providerId b) (body_appointmentDate b) (body_startTime b) a →
  blocking a →
  (createAppointment b w).1 = Resolved slotTaken
  ∧ sameStores w (createAppointment b w).2.
Proof.
  intros Hh [pc Hpc] [pt Hpt] [pd Hpd] Ha Hslot Hlive. enter w.
  destruct (head_select_Some
              (conflictFilter (body_providerId b) (body_appointmentDate b) (body_startTime b))
              ap id a Ha) as [doc Hdoc];
    [by apply matches_conflictFilter|].
  run. step Hpc. step Hpt. step Hpd. step Hdoc. done.
Qed.

Lemma create_conflict_rejected_witness :
  (createAppointment (Clinic.request 1%N Clinic.jan10 "09:00" "09:30") (Clinic.world [])).1
  = Resolved slotTaken
  ∧ sameStores (Clinic.world [])
      (createAppointment (Clinic.request 1%N Clinic.jan10 "09:00" "09:30") (Clinic.world [])).2.
Proof.
  apply (create_conflict_rejected
           (Clinic.request 1%N Clinic.jan10 "09:00" "09:30") (Clinic.world []) 10%N
           (Clinic.visit Clinic.jan10 "09:00" "09:30" "scheduled")).
  - reflexivity.
  - vm_compute. eauto.
  - vm_compute. eauto.
  - vm_compute. eauto.
  - vm_compute. reflexivity.
  - repeat split.
  - split; discriminate.
Defined.

(** The conflict query finds nothing when every appointment at the slot is
    cancelled or a no-show. *)
Lemma no_conflict (provider : Id) (d : Date) (t : string) (m : gmap Id Appointment) :
  (∀ id a, m !! id = Some a → atSlot provider d t a →
           status a = "cancelled" ∨ status a = "no-show") →
  head (select (conflictFilter provider d t) m) = None.
Proof.
  intros Hfree. apply head_select_None. intros id a Ha.
  apply not_true_false. rewrite matches_conflictFilter.
  intros [Hslot [Hc Hn]]. destruct (Hfree id a Ha Hslot); done.
Qed.

Lemma fresh_id_unused (m : gmap Id Appointment) : m !! fresh (dom m) = None.
Proof. apply not_elem_of_dom, is_fresh. Qed.

(** C2. While no operation rejects and the practice, the patient and the
    provider of the request exist: if every appointment at the request's
    (provider, date, start time) is 'cancelled' or 'no-show', the request is
    answered 201 with the new appointment, and the collection afterwards is
    the former one with the new appointment added under an id that was not
    in use. *)
Theorem create_free_slot_succeeds (b : CreateBody) (w : World) :
  healthy w →
  is_Some (practices w !! body_practiceId b) →
  is_Some (patients w !! body_patientId b) →
  is_Some (providers w !! body_providerId b) →
  (∀ id a, appointments w !! id = Some a →
           atSlot (body_providerId b) (body_appointmentDate b) (body_startTime b) a →
           status a = "cancelled" ∨ status a = "no-show") →
  let id := fresh (dom (appointments w)) in
  (createAppointment b w).1 = Resolved (created (id, new_Appointment b))
  ∧ appointments w !! id = None
  ∧ appointments (createAppointment b w).2 = <[id := new_Appointment b]> (appointments w).
Proof.
  intros Hh [pc Hpc] [pt Hpt] [pd Hpd] Hfree id. subst id. enter w.
  apply no_conflict in Hfree.
  split; [|split; [apply fresh_id_unused|]].
  all: run; step Hpc; step Hpt; step Hpd; step Hfree; done.
Qed.

Lemma create_free_slot_succeeds_witness :
  (createAppointment (Clinic.request 1%N Clinic.jan10 "10:00" "10:30") (Clinic.world [])).1
  = Resolved (created (14%N, Clinic.visit Clinic.jan10 "10:00" "10:30" "scheduled"))
  ∧ appointments (Clinic.world []) !! 14%N = None
  ∧ appointments
      (createAppointment (Clinic.request 1%N Clinic.jan10 "10:00" "10:30") (Clinic.world [])).2
    = <[14%N := Clinic.visit Clinic.jan10 "10:00" "10:30" "scheduled"]> Clinic.booked.
Proof.
  apply (create_free_slot_succeeds
           (Clinic.request 1%N Clinic.jan10 "10:00" "10:30") (Clinic.world [])).
  - reflexivity.
  - vm_compute. eauto.
  - vm_compute. eauto.
  - vm_compute. eauto.
  - intros id a Ha [_ [_ Ht]].
    change (Clinic.booked !! id = Some a) in Ha.
    apply elem_of_map_to_list in Ha. vm_compute in Ha.
    repeat (apply elem_of_cons in Ha as [Ha|Ha];
            [injection Ha as -> ->; first [by left | by right | discriminate Ht]|]).
    by apply elem_of_nil in Ha.
Defined.

(** ** Create: the statistics *)

Lemma count_provider_live (provider : Id) (m : gmap Id Appointment) :
  length (select (mkFilter None None (Some provider) (Some (StatusNe "cancelled"))
                           None None None) m)
  = countWhere (λ a, providerId a = provider ∧ status a ≠ "cancelled") m.
Proof.
  unfold select, countWhere. apply length_filter_bool. intros [id a].
  unfold matches; simpl.
  rewrite !andb_true_r, andb_true_iff, negb_true_iff, bool_decide_eq_true,
    bool_decide_eq_false.
  done.
Qed.

Lemma count_practice (practice : Id) (m : gmap Id Appointment) :
  length (select (mkFilter (Some practice) None None None None None None) m)
  = countWhere (λ a, practiceId a = practice) m.
Proof.
  unfold select, countWhere. apply length_filter_bool. intros [id a].
  unfold matches; simpl. by rewrite !andb_true_r, bool_decide_eq_true.
Qed.

(** C5. While no operation rejects, after a create request that is answered
    201: the patient's [stats.nextAppointment] is the date of the request,
    the provider's [stats.totalAppointments] is the number of appointments
    of the collection with that provider and a status other than
    'cancelled', and the practice's [stats.totalAppointments] is the number
    of appointments of the collection with that practice (the new
    appointment counted in both). *)
Theorem create_updates_stats (b : CreateBody) (w : World) (r : Response) :
  healthy w →
  (createAppointment b w).1 = Resolved r →
  code r = 201%nat →
  let w' := (createAppointment b w).2 in
  (∃ p, patients w' !! body_patientId b = Some p
        ∧ nextAppointment (patient_stats p) = Some (body_appointmentDate b))
  ∧ (∃ p, providers w' !! body_providerId b = Some p
          ∧ totalAppointments (provider_stats p)
            = Some (countWhere (λ a, providerId a = body_providerId b
                                     ∧ status a ≠ "cancelled")
                               (appointments w')))
  ∧ (∃ p, practices w' !! body_practiceId b = Some p
          ∧ totalAppointments (practice_stats p)
            = Some (countWhere (λ a, practiceId a = body_practiceId b)
                               (appointments w')))
  ∧ appointments w' !! fresh (dom (appointments w)) = Some (new_Appointment b).
Proof.
  intros Hh Hr Hcode w'. subst w'. enter w. revert Hr. run.
  destruct (pr !! body_practiceId b) as [pc|] eqn:Hpc; simpl;
    [|intros [= <-]; discriminate Hcode].
  destruct (pa !! body_patientId b) as [pt|] eqn:Hpt; simpl;
    [|intros [= <-]; discriminate Hcode].
  destruct (pv !! body_providerId b) as [pd|] eqn:Hpd; simpl;
    [|intros [= <-]; discriminate Hcode].
  destruct (head (select _ ap)) as [doc|] eqn:Hfree; simpl;
    [intros [= <-]; discriminate Hcode|].
  intros _. repeat split.
  - eexists. split; [apply lookup_insert_eq | reflexivity].
  - eexists. split; [apply lookup_insert_eq | simpl].
    by rewrite count_provider_live.
  - eexists. split; [apply lookup_insert_eq | simpl].
    by rewrite count_practice.
  - apply lookup_insert_eq.
Qed.

Lemma create_updates_stats_witness :
  let b := Clinic.request 1%N Clinic.jan10 "10:00" "10:30" in
  let w' := (createAppointment b (Clinic.world [])).2 in
  ((∃ p, patients w' !! 2%N = Some p
         ∧ nextAppointment (patient_stats p) = Some Clinic.jan10)
   ∧ (∃ p, providers w' !! 3%N = Some p
           ∧ totalAppointments (provider_stats p)
             = Some (countWhere (λ a, providerId a = 3%N ∧ status a ≠ "cancelled")
                                (appointments w')))
   ∧ (∃ p, practices w' !! 1%N = Some p
           ∧ totalAppointments (practice_stats p)
             = Some (countWhere (λ a, practiceId a = 1%N) (appointments w')))
   ∧ appointments w' !! 14%N = Some (new_Appointment b))
  ∧ countWhere (λ a, providerId a = 3%N ∧ status a ≠ "cancelled") (appointments w') = 4%nat
  ∧ countWhere (λ a, practiceId a = 1%N) (appointments w') = 5%nat.
Proof.
  split; [|split; vm_compute; reflexivity].
  apply (create_updates_stats
           (Clinic.request 1%N Clinic.jan10 "10:00" "10:30") (Clinic.world [])
           (created (14%N, Clinic.visit Clinic.jan10 "10:00" "10:30" "scheduled"))).
  - reflexivity.
  - vm_compute. reflexivity.
  - reflexivity.
Defined.

(** C8, as the claim has it, fails: with the same request and collections,
    once without a rejection and once with the first statistics update
    (the sixth awaited operation) rejecting, the appointment is stored in
    both runs, and the answers are 201 in the first and 500 in the second. *)
Lemma create_stats_rejection_is_500 :
  let req := Clinic.request 1%N Clinic.jan10 "10:00" "10:30" in
  let good := createAppointment req (Clinic.world []) in
  let bad := createAppointment req
               (Clinic.world [None; None; None; None; None; Some "stats write failed"]) in
  good.1 = Resolved (created (14%N, new_Appointment req))
  ∧ appointments bad.2 !! 14%N = Some (new_Appointment req)
  ∧ appointments bad.2 = appointments good.2
  ∧ trace bad.2 = [FindById Practices 1%N; FindById Patients 2%N; FindById Providers 3%N;
                   FindOne; Save; UpdateStats Patients 2%N]
  ∧ bad.1 = Resolved (createFailed "stats write failed")
  ∧ bad.1 ≠ good.1.
Proof.
  repeat split; try (vm_compute; reflexivity).
  vm_compute. discriminate.
Qed.

(** C8, amended. Take a create request whose practice, patient and provider
    exist and whose slot is free, and let the first rejection be that of
    one of the five operations after the save, with message [e]. Then the
    answer is 500 "Failed to create appointment" with [e] as details, the
    new appointment is in the collection all the same, and the operations
    after the rejected one were not awaited. *)
Theorem create_stats_rejection (b : CreateBody) (w : World) (k : nat) (e : string)
    (rest : list (option string)) :
  faults w = replicate (5 + k) None ++ Some e :: rest →
  (k < 5)%nat →
  is_Some (practices w !! body_practiceId b) →
  is_Some (patients w !! body_patientId b) →
  is_Some (providers w !! body_providerId b) →
  (∀ id a, appointments w !! id = Some a →
           atSlot (body_providerId b) (body_appointmentDate b) (body_startTime b) a →
           status a = "cancelled" ∨ status a = "no-show") →
  let w' := (createAppointment b w).2 in
  (createAppointment b w).1 = Resolved (createFailed e)
  ∧ appointments w' = <[fresh (dom (appointments w)) := new_Appointment b]> (appointments w)
  ∧ trace w' = trace w ++ primaryOps b ++ take (S k) (statsOps b).
Proof.
  intros Hf Hk [pc Hpc] [pt Hpt] [pd Hpd] Hfree w'. subst w'.
  apply no_conflict in Hfree.
  destruct w as [pr pa pv ap fs tr]; simpl in *; subst fs.
  destruct k as [|[|[|[|[|k]]]]]; [..|lia]; clear Hk.
  all: repeat split; run; step Hpc; step Hpt; step Hpd; step Hfree.
  all: unfold primaryOps, statsOps; rewrite <- ?app_assoc; done.
Qed.

Lemma create_stats_rejection_witness :
  let req := Clinic.request 1%N Clinic.jan10 "10:00" "10:30" in
  let bad := createAppointment req
               (Clinic.world [None; None; None; None; None; None; None; Some "disk full"]) in
  bad.1 = Resolved (createFailed "disk full")
  ∧ appointments bad.2 = <[14%N := new_Appointment req]> Clinic.booked
  ∧ trace bad.2 = [FindById Practices 1%N; FindById Patients 2%N; FindById Providers 3%N;
                   FindOne; Save; UpdateStats Patients 2%N; CountDocuments;
                   UpdateStats Providers 3%N].
Proof.
  apply (create_stats_rejection
           (Clinic.request 1%N Clinic.jan10 "10:00" "10:30")
           (Clinic.world [None; None; None; None; None; None; None; Some "disk full"])
           2 "disk full" []).
  - reflexivity.
  - lia.
  - vm_compute. eauto.
  - vm_compute. eauto.
  - vm_compute. eauto.
  - intros id a Ha [_ [_ Ht]].
    change (Clinic.booked !! id = Some a) in Ha.
    apply elem_of_map_to_list in Ha. vm_compute in Ha.
    repeat (apply elem_of_cons in Ha as [Ha|Ha];
            [injection Ha as -> ->; first [by left | by right | discriminate Ht]|]).
    by apply elem_of_nil in Ha.
Defined.

(** ** Reschedule *)

(** C3. While no operation rejects, rescheduling an existing appointment
    [a] (stored under [id]) to a date and start time: if another id holds an
    appointment of [a]'s provider at that date and start time whose status
    is neither 'cancelled' nor 'no-show', the answer is 400 "New time slot
    already booked", the reschedule operation is not called and nothing is
    changed; if every such appointment is stored under [id] itself (in
    particular when [a] alone is at the slot), the reschedule operation is
    called on [a] and the answer is 200 "Appointment rescheduled". *)
Theorem reschedule_excludes_self (id : Id) (b : RescheduleBody) (w : World)
    (a : Appointment) :
  healthy w →
  appointments w !! id = Some a →
  let r := rescheduleAppointment id b w in
  ((∃ id2 a2, id2 ≠ id ∧ appointments w !! id2 = Some a2
              ∧ atSlot (providerId a) (newDate b) (newStartTime b) a2 ∧ blocking a2) →
     r.1 = Resolved newSlotTaken
     ∧ sameStores w r.2
     ∧ trace r.2 = trace w ++ [FindById Appointments id; FindOne])
  ∧ ((∀ id2 a2, appointments w !! id2 = Some a2 →
                atSlot (providerId a) (newDate b) (newStartTime b) a2 →
                blocking a2 → id2 = id) →
     (∃ a', r.1 = Resolved (rescheduled (id, a')))
     ∧ trace r.2 = trace w ++ [FindById Appointments id; FindOne; Reschedule id]).
Proof.
  intros Hh Ha r. subst r. enter w. split.
  - intros (id2 & a2 & Hne & Ha2 & Hslot & Hlive).
    destruct (head_select_Some
                (rescheduleFilter (providerId a) (newDate b) (newStartTime b) id)
                ap id2 a2 Ha2) as [doc Hdoc];
      [by apply matches_rescheduleFilter|].
    run. step Ha. step Hdoc. by rewrite <- app_assoc.
  - intros Hself.
    assert (Hnone : head (select (rescheduleFilter (providerId a) (newDate b)
                                                   (newStartTime b) id) ap) = None).
    { apply head_select_None. intros id2 a2 Ha2. apply not_true_false.
      rewrite matches_rescheduleFilter. intros (Hslot & Hlive & Hne).
      by apply Hne, (Hself id2 a2). }
    run. step Ha. step Hnone. rewrite <- !app_assoc. eauto.
Qed.

Lemma reschedule_excludes_self_witness :
  let own := mkRescheduleBody Clinic.jan10 "09:00" "09:45" "longer visit" in
  let taken := mkRescheduleBody Clinic.jan10 "09:00" "09:30" "earlier" in
  ((∃ a', (rescheduleAppointment 10%N own (Clinic.world [])).1
          = Resolved (rescheduled (10%N, a')))
   ∧ trace (rescheduleAppointment 10%N own (Clinic.world [])).2
     = [FindById Appointments 10%N; FindOne; Reschedule 10%N])
  ∧ (rescheduleAppointment 12%N taken (Clinic.world [])).1 = Resolved newSlotTaken.
Proof.
  intros own taken. split.
  - destruct (reschedule_excludes_self 10%N own (Clinic.world [])
                (Clinic.visit Clinic.jan10 "09:00" "09:30" "scheduled")) as [_ Hown];
      [reflexivity | vm_compute; reflexivity |].
    apply Hown. intros id2 a2 Ha2 [_ [Hd Ht]] [Hc Hn].
    change (Clinic.booked !! id2 = Some a2) in Ha2.
    apply elem_of_map_to_list in Ha2. vm_compute in Ha2.
    repeat (apply elem_of_cons in Ha2 as [Ha2|Ha2];
            [injection Ha2 as -> ->;
             first [reflexivity | discriminate Hd | discriminate Ht
                   | by destruct Hc | by destruct Hn]|]).
    by apply elem_of_nil in Ha2.
  - destruct (reschedule_excludes_self 12%N taken (Clinic.world [])
                (Clinic.visit Clinic.jan14 "09:00" "09:30" "completed")) as [Htaken _];
      [reflexivity | vm_compute; reflexivity |].
    apply Htaken.
    exists 10%N, (Clinic.visit Clinic.jan10 "09:00" "09:30" "scheduled").
    repeat split; discriminate.
Defined.

(** ** Available slots *)

Lemma getDay_lt_7 (d : Date) : (getDay d < 7)%nat.
Proof.
  unfold getDay.
  pose proof (Z.mod_pos_bound (d `div` msPerDay + 4) 7). lia.
Qed.

(** C7. While no operation rejects, for a provider that exists and a date
    whose day of the week has [available] false in the provider's schedule,
    the answer is 200 with [success] true, an empty [availableSlots] and the
    message "Provider not available on this day"; nothing is changed. *)
Theorem unavailable_day_is_empty_list (providerId : Id) (d : Date) (w : World)
    (p : Provider) (dayName : string) (s : DaySchedule) :
  healthy w →
  providers w !! providerId = Some p →
  days !! getDay d = Some dayName →
  schedule p !! dayName = Some s →
  available s = false →
  (getAvailableSlots providerId (Some d) w).1 = Resolved notAvailable
  ∧ sameStores w (getAvailableSlots providerId (Some d) w).2.
Proof.
  intros Hh Hp Hday Hs Hav. enter w. run. step Hp. step Hday. step Hs. step Hav. done.
Qed.

Lemma unavailable_day_is_empty_list_witness :
  (getAvailableSlots 3%N (Some Clinic.jan14) (Clinic.world [])).1 = Resolved notAvailable
  ∧ sameStores (Clinic.world [])
      (getAvailableSlots 3%N (Some Clinic.jan14) (Clinic.world [])).2.
Proof.
  apply (unavailable_day_is_empty_list 3%N Clinic.jan14 (Clinic.world [])
           Clinic.drLee "sunday" (mkDaySchedule false "10:00-12:00")).
  all: vm_compute; reflexivity.
Defined.

(** ** Delete *)

(** C9. While no operation rejects: deleting an id that the collection does
    not have is answered 404 with [success] false and "Appointment not
    found", and nothing is changed; deleting an id that it has is answered
    200 with [success] true, and the collection afterwards is the former
    one without that id. *)
Theorem delete_found_or_404 (id : Id) (w : World) :
  healthy w →
  let r := deleteAppointment id w in
  (appointments w !! id = None →
     r.1 = Resolved appointmentNotFound ∧ sameStores w r.2)
  ∧ (is_Some (appointments w !! id) →
     r.1 = Resolved deleted
     ∧ appointments r.2 = delete id (appointments w)
     ∧ appointments r.2 !! id = None
     ∧ practices r.2 = practices w ∧ patients r.2 = patients w
     ∧ providers r.2 = providers w).
Proof.
  intros Hh r. subst r. enter w. split.
  - intros Hnone. run. step Hnone. by rewrite delete_id.
  - intros [a Ha]. run. step Ha. by rewrite lookup_delete_eq.
Qed.

Lemma delete_found_or_404_witness :
  healthy (Clinic.world [])
  ∧ (deleteAppointment 99%N (Clinic.world [])).1 = Resolved appointmentNotFound
  ∧ (deleteAppointment 10%N (Clinic.world [])).1 = Resolved deleted
  ∧ appointments (deleteAppointment 10%N (Clinic.world [])).2 = delete 10%N Clinic.booked.
Proof.
  split; [reflexivity|].
  destruct (delete_found_or_404 99%N (Clinic.world [])) as [H404 _]; [reflexivity|].
  destruct (delete_found_or_404 10%N (Clinic.world [])) as [_ H200]; [reflexivity|].
  destruct H404 as [H404 _]; [vm_compute; reflexivity|].
  destruct H200 as (H200 & Hdel & _); [vm_compute; eauto|].
  split; [exact H404|]. split; [exact H200 | exact Hdel].
Defined.

(** ** List *)

(** The order of the sort is total and transitive. *)
Lemma ascii_compare_spec (a b : Ascii.ascii) :
  CompareSpec (a = b) (Ascii.N_of_ascii a < Ascii.N_of_ascii b)%N
              (Ascii.N_of_ascii b < Ascii.N_of_ascii a)%N (Ascii.compare a b).
Proof.
  unfold Ascii.compare.
  destruct (N.compare_spec (Ascii.N_of_ascii a) (Ascii.N_of_ascii b)) as [E|E|E];
    constructor; try done.
  rewrite <- (Ascii.ascii_N_embedding a), <- (Ascii.ascii_N_embedding b).
  by rewrite E.
Qed.

Lemma string_leb_trans (s1 s2 s3 : string) :
  String.leb s1 s2 = true → String.leb s2 s3 = true → String.leb s1 s3 = true.
Proof.
  unfold String.leb. revert s2 s3.
  induction s1 as [|c1 s1 IH]; intros [|c2 s2] [|c3 s3]; simpl; try done.
  destruct (ascii_compare_spec c1 c2) as [->|H12|H12]; [| |done].
  - destruct (ascii_compare_spec c2 c3) as [->|H23|H23]; [apply IH|done|done].
  - intros _.
    destruct (ascii_compare_spec c2 c3) as [->|H23|H23]; [| |done]; intros _.
    + destruct (ascii_compare_spec c1 c3) as [->|H13|H13]; [lia|done|lia].
    + destruct (ascii_compare_spec c1 c3) as [->|H13|H13]; [lia|done|lia].
Qed.

Global Instance byDateThenStart_total : Total byDateThenStart.
Proof.
  intros x y. unfold byDateThenStart.
  destruct (Z.lt_trichotomy (appointmentDate x.2) (appointmentDate y.2)) as [H|[H|H]];
    [by left; left | | by right; left].
  destruct (String.leb_total (startTime x.2) (startTime y.2));
    [left | right]; right; by split.
Qed.

Global Instance byDateThenStart_trans : Transitive byDateThenStart.
Proof.
  intros x y z. unfold byDateThenStart.
  intros [H1|[E1 L1]] [H2|[E2 L2]]; try (left; lia).
  right. split; [lia | by eapply string_leb_trans].
Qed.

Lemma optb_is {A} `{EqDecision A} (o : option A) (v : A) :
  optb o (λ x, bool_decide (v = x)) = true ↔ ∀ x, o = Some x → v = x.
Proof.
  destruct o as [y|]; simpl; [rewrite bool_decide_eq_true|]; split; try done.
  - by intros -> x [= ->].
  - intros Hy. by apply Hy.
Qed.

Lemma optb_status (o : option string) (v : string) :
  optb (StatusIs <$> o) (λ c, statusHolds c v) = true ↔ ∀ s, o = Some s → v = s.
Proof. rewrite <- optb_is. by destruct o. Qed.

Lemma matches_listFilters (q : ListQuery) (id : Id) (a : Appointment) :
  matches (listFilters q) (id, a) = true
  ↔ selectedBy q a
    ∧ match q_appointmentDate (listFilters q) with
      | Some c => dateHolds c (appointmentDate a) = true
      | None => True
      end.
Proof.
  unfold matches, selectedBy.
  replace (q_practiceId (listFilters q)) with (query_practiceId q) by done.
  replace (q_patientId (listFilters q)) with (query_patientId q) by done.
  replace (q_providerId (listFilters q)) with (query_providerId q) by done.
  replace (q_status (listFilters q)) with (StatusIs <$> query_status q) by done.
  replace (q_startTime (listFilters q)) with (@None string) by done.
  replace (q_id_ne (listFilters q)) with (@None Id) by done.
  generalize (q_appointmentDate (listFilters q)). intros dc. simpl.
  rewrite !andb_true_r, !andb_true_iff, !optb_is, optb_status.
  destruct dc; simpl; tauto.
Qed.

(** What the list route answers while no operation rejects. *)
Lemma getAppointments_healthy (q : ListQuery) (w : World) :
  healthy w →
  getAppointments q w = (Resolved (listing (populate w <$> listedDocs q w)), log Find w).
Proof. intros Hh. enter w. run. done. Qed.

Lemma elem_of_listedDocs (q : ListQuery) (w : World) (id : Id) (a : Appointment) :
  (id, a) ∈ listedDocs q w
  ↔ appointments w !! id = Some a ∧ matches (listFilters q) (id, a) = true.
Proof. unfold listedDocs. by rewrite merge_sort_Permutation, elem_of_select. Qed.

Lemma unpopulate_populate (w : World) (docs : list (Id * Appointment)) :
  unpopulate <$> (populate w <$> docs) = docs.
Proof.
  rewrite <- list_fmap_compose. rewrite <- (list_fmap_id docs) at 2.
  apply list_fmap_ext. by intros _ [id a] _.
Qed.

(** C4. While no operation rejects, and the day after the [date] of the
    query (when it has one) is still within the range of dates, the list
    route answers 200 with the documents [docs] (each populated) and their
    number, where [docs] is sorted by appointment date and then start time,
    has no document twice, and holds exactly the appointments of the
    collection that pass the equality filters of the query and
    - with [date = D]: whose date [t] has [D <= t < D + 1 day];
    - without [date], with [startDate = A] and [endDate = B]: whose date
      [t] has [A <= t <= B]. *)
Theorem list_by_date (q : ListQuery) (w : World) :
  healthy w →
  (∀ D, query_date q = Some D → D + msPerDay ≤ maxDate) →
  ∃ docs : list (Id * Appointment),
    (getAppointments q w).1 = Resolved (listing (populate w <$> docs))
    ∧ unpopulate <$> (populate w <$> docs) = docs
    ∧ StronglySorted byDateThenStart docs
    ∧ NoDup docs
    ∧ (∀ D, query_date q = Some D →
         ∀ id a, (id, a) ∈ docs
                 ↔ appointments w !! id = Some a ∧ selectedBy q a
                   ∧ D ≤ appointmentDate a < D + msPerDay)
    ∧ (∀ A B, query_date q = None →
         query_startDate q = Some A → query_endDate q = Some B →
         ∀ id a, (id, a) ∈ docs
                 ↔ appointments w !! id = Some a ∧ selectedBy q a
                   ∧ A ≤ appointmentDate a ≤ B).
Proof.
  intros Hh Hday. exists (listedDocs q w).
  split; [|split; [|split; [|split; [|split]]]].
  - by rewrite getAppointments_healthy.
  - apply unpopulate_populate.
  - apply (StronglySorted_merge_sort _).
  - unfold listedDocs. rewrite merge_sort_Permutation. apply NoDup_select.
  - intros D HD id a. rewrite elem_of_listedDocs, matches_listFilters.
    unfold listFilters at 1; simpl. rewrite HD; simpl. unfold nextDay.
    rewrite andb_true_iff, Z.leb_le, Z.ltb_lt. tauto.
  - intros A B HD HA HB id a. rewrite elem_of_listedDocs, matches_listFilters.
    unfold listFilters at 1; simpl. rewrite HD, HA, HB; simpl.
    rewrite andb_true_iff, !Z.leb_le. tauto.
Qed.

Lemma list_by_date_witness :
  let q := mkListQuery None None None None (Some Clinic.jan10) None None in
  healthy (Clinic.world [])
  ∧ Clinic.jan10 + msPerDay ≤ maxDate
  ∧ (∃ docs, (getAppointments q (Clinic.world [])).1
             = Resolved (listing (populate (Clinic.world []) <$> docs))
             ∧ StronglySorted byDateThenStart docs)
  ∧ idsOf (getAppointments q (Clinic.world [])).1 = [13%N; 10%N; 11%N].
Proof.
  intros q.
  assert (Hday : Clinic.jan10 + msPerDay ≤ maxDate)
    by (unfold Clinic.jan10, msPerDay, maxDate; lia).
  split; [reflexivity|]. split; [exact Hday|]. split; [|vm_compute; reflexivity].
  destruct (list_by_date q (Clinic.world [])) as (docs & Hr & _ & Hs & _);
    [reflexivity | by intros D [= <-] |].
  exists docs. by split.
Defined.

(** C10. A list request without [date] and with only one of [startDate]
    and [endDate] (or neither) builds no date filter and is answered as the
    same request with the range bounds left out, whatever the collections
    hold and whichever operation rejects; while none does, the answer holds
    exactly the appointments that pass the equality filters of the query,
    of every date. *)
Theorem list_half_range_is_unfiltered (q : ListQuery) (w : World) :
  query_date q = None →
  query_startDate q = None ∨ query_endDate q = None →
  q_appointmentDate (listFilters q) = None
  ∧ getAppointments q w = getAppointments (withoutRange q) w
  ∧ (healthy w →
     (getAppointments q w).1 = Resolved (listing (populate w <$> listedDocs q w))
     ∧ ∀ id a, (id, a) ∈ listedDocs q w
               ↔ appointments w !! id = Some a ∧ selectedBy q a).
Proof.
  intros Hdate Hhalf.
  assert (Hsame : listFilters q = listFilters (withoutRange q)).
  { unfold listFilters, withoutRange; simpl. rewrite Hdate.
    destruct Hhalf as [-> | ->]; [done | by destruct (query_startDate q)]. }
  assert (Hnone : q_appointmentDate (listFilters q) = None).
  { rewrite Hsame. unfold listFilters, withoutRange; simpl. by rewrite Hdate. }
  split; [done|]. split.
  - unfold getAppointments. by rewrite Hsame.
  - intros Hh. split; [by rewrite getAppointments_healthy|].
    intros id a. rewrite elem_of_listedDocs, matches_listFilters, Hnone. tauto.
Qed.

Lemma list_half_range_is_unfiltered_witness :
  let q := mkListQuery None None (Some 3%N) None None (Some Clinic.jan14) None in
  (q_appointmentDate (listFilters q) = None
   ∧ getAppointments q (Clinic.world [])
     = getAppointments (withoutRange q) (Clinic.world []))
  ∧ idsOf (getAppointments q (Clinic.world [])).1 = [13%N; 10%N; 11%N; 12%N].
Proof.
  intros q.
  destruct (list_half_range_is_unfiltered q (Clinic.world [])) as (Hnone & Hsame & _);
    [reflexivity | by right |].
  split; [by split | vm_compute; reflexivity].
Defined.

(** ** A program logic for the handlers *)

Section Triples.
Context {A B : Type}.
Implicit Types (P E : World → Prop).

Lemma triple_resolve P (a : A) (Q : A → World → Prop) E :
  (∀ w, P w → Q a w) → triple P (resolve a) Q E.
Proof. intros H w Hw. by apply H. Qed.

Lemma triple_throw P (e : string) (Q : A → World → Prop) E :
  (∀ w, P w → E w) → triple P (throw e) Q E.
Proof. intros H w Hw. by apply H. Qed.

Lemma triple_andThen P (m : Async A) (k : A → Async B)
    (R : A → World → Prop) (Q : B → World → Prop) E :
  triple P m R E → (∀ a, triple (R a) (k a) Q E) → triple P (andThen m k) Q E.
Proof.
  intros Hm Hk w Hw. unfold andThen. specialize (Hm w Hw).
  destruct (m w) as [[a|e] w']; [by apply Hk | done].
Qed.

Lemma triple_tryCatch P (m : Async A) (h : string → Async A)
    (Q : A → World → Prop) E E' :
  triple P m Q E → (∀ e, triple E (h e) Q E') → triple P (tryCatch m h) Q E'.
Proof.
  intros Hm Hh w Hw. unfold tryCatch. specialize (Hm w Hw).
  destruct (m w) as [[a|e] w']; [done | by apply Hh].
Qed.

Lemma triple_await P (op : Op) (run : World → A * World)
    (Q : A → World → Prop) E :
  stable P →
  (∀ w, P w → E w) →
  (∀ w, P w → Q (run w).1 (run w).2) →
  triple P (await op run) Q E.
Proof.
  intros HP HE HQ w Hw. unfold await.
  assert (H1 : ∀ fs, P (set_faults fs (log op w))).
  { intros fs. apply (HP w); [|done]. by repeat split. }
  assert (H0 : P (log op w)).
  { apply (HP w); [|done]. by repeat split. }
  destruct (faults (log op w)) as [|[e|] rest].
  - specialize (HQ _ H0). by destruct (run (log op w)).
  - by apply HE.
  - specialize (HQ _ (H1 rest)). by destruct (run (set_faults rest (log op w))).
Qed.

Lemma triple_awaitUnlogged P (run : World → A * World)
    (Q : A → World → Prop) E :
  stable P →
  (∀ w, P w → E w) →
  (∀ w, P w → Q (run w).1 (run w).2) →
  triple P (awaitUnlogged run) Q E.
Proof.
  intros HP HE HQ w Hw. unfold awaitUnlogged.
  assert (H1 : ∀ fs, P (set_faults fs w)).
  { intros fs. apply (HP w); [|done]. by repeat split. }
  destruct (faults w) as [|[e|] rest].
  - specialize (HQ _ Hw). by destruct (run w).
  - by apply HE.
  - specialize (HQ _ (H1 rest)). by destruct (run (set_faults rest w)).
Qed.
End Triples.

Lemma triple_json (P : World → Prop) (c : nat) (b : Body)
    (Q : Response → World → Prop) (E : World → Prop) :
  (∀ w, P w → Q (mkResponse c b) w) → triple P (json c b) Q E.
Proof. intros H w Hw. by apply H. Qed.

(** A handler that cannot reject, from its triple. *)
Lemma triple_answer (m : Async Response) (P : World → Prop)
    (Q : Response → World → Prop) (w : World) :
  triple P m Q (λ _, False) → P w →
  ∃ r, (m w).1 = Resolved r ∧ Q r (m w).2.
Proof.
  intros Hm Hw. specialize (Hm w Hw).
  destruct (m w) as [[r|e] w']; [by exists r | done].
Qed.

Lemma stable_True : stable (λ _, True).
Proof. done. Qed.

Lemma stable_sameStores (w0 : World) : stable (sameStores w0).
Proof.
  intros w w' (H1 & H2 & H3 & H4) (G1 & G2 & G3 & G4).
  repeat split; congruence.
Qed.

Ltac unfold_ops :=
  unfold Practice_findById, Patient_findById, Provider_findById,
    Appointment_findById, Appointment_findOne, Appointment_save,
    Appointment_countDocuments, Appointment_findByIdAndDelete,
    Appointment_findByIdAndUpdate, Appointment_cancel,
    Appointment_reschedule, Appointment_find_sorted, Appointment_find_times,
    Patient_updateStats, Provider_updateStats, Practice_updateStats;
  cbv beta iota.

Ltac unfold_routes :=
  unfold createAppointment, getAppointments, rescheduleAppointment,
    getAvailableSlots, deleteAppointment, updateAppointment, cancelAppointment.

(** One step of a handler under an invariant [P] that every operation keeps:
    the tactic [keep] closes the side conditions of an awaited operation. *)
Ltac walk P keep :=
  repeat match goal with
         | |- triple _ (json _ _) _ _ => apply triple_json; intros ? ?
         | |- triple _ (resolve _) _ _ => apply triple_resolve; intros ? ?
         | |- triple _ (throw _) _ _ => apply triple_throw; intros ? ?
         | |- triple _ (andThen _ _) _ _ =>
             eapply (triple_andThen _ _ _ (λ _, P)); [ | intros ? ]
         | |- triple _ (await _ _) _ _ =>
             apply triple_await; [keep | intros ? ?; keep | intros ? ?; keep]
         | |- triple _ (awaitUnlogged _) _ _ =>
             apply triple_awaitUnlogged; [keep | intros ? ?; keep | intros ? ?; keep]
         | |- triple _ (match ?x with _ => _ end) _ _ => destruct x
         end.

(** ** Every route answers with an envelope *)

Lemma envelope_failure (c : nat) (e : string) :
  (c = 400 ∨ c = 404 ∨ c = 500)%nat → envelope (mkResponse c (failure e)).
Proof. intros Hc. right. repeat split; [by exists e | exact Hc]. Qed.

Lemma envelope_failureWith (e d : string) : envelope (mkResponse 500 (failureWith e d)).
Proof. right. repeat split; [by exists e | by right; right]. Qed.

Lemma envelope_success (c : nat) (b : Body) :
  success b = true → error b = None → details b = None →
  (c = 200 ∨ c = 201)%nat → envelope (mkResponse c b).
Proof. intros. by left. Qed.

Ltac envelope_ok :=
  lazymatch goal with
  | |- envelope (mkResponse _ (failureWith _ _)) => apply envelope_failureWith
  | |- envelope (mkResponse 400 (failure _)) => apply envelope_failure; left; reflexivity
  | |- envelope (mkResponse 404 (failure _)) =>
      apply envelope_failure; right; left; reflexivity
  | |- envelope (mkResponse 200 _) =>
      apply envelope_success; [reflexivity | reflexivity | reflexivity | left; reflexivity]
  | |- envelope (mkResponse 201 _) =>
      apply envelope_success; [reflexivity | reflexivity | reflexivity | right; reflexivity]
  end.

Lemma routes_never_reject :
  (∀ q, triple (λ _, True) (getAppointments q) (λ r _, envelope r) (λ _, False))
  ∧ (∀ b, triple (λ _, True) (createAppointment b) (λ r _, envelope r) (λ _, False))
  ∧ (∀ id b, triple (λ _, True) (updateAppointment id b) (λ r _, envelope r) (λ _, False))
  ∧ (∀ id b, triple (λ _, True) (cancelAppointment id b) (λ r _, envelope r) (λ _, False))
  ∧ (∀ id b, triple (λ _, True) (rescheduleAppointment id b) (λ r _, envelope r) (λ _, False))
  ∧ (∀ id d, triple (λ _, True) (getAvailableSlots id d) (λ r _, envelope r) (λ _, False))
  ∧ (∀ id, triple (λ _, True) (deleteAppointment id) (λ r _, envelope r) (λ _, False)).
Proof.
  repeat split; intros; unfold_routes.
  all: eapply triple_tryCatch with (E := λ _, True);
    [|intros e; apply triple_json; intros ? _; envelope_ok].
  all: unfold_ops; walk (λ _ : World, True) ltac:(first [apply stable_True | exact I]).
  all: first [exact I | envelope_ok].
Qed.

(** X1. Whatever the collections hold and whichever awaited operations
    reject, each of the seven routes answers (no rejection escapes its
    [try]/[catch]), and the answer is an envelope: [success] true with code
    200 or 201 and no error, or [success] false with code 400, 404 or 500,
    an error text and no data. *)
Theorem every_route_answers_with_an_envelope (w : World) :
  (∀ q, ∃ r, (getAppointments q w).1 = Resolved r ∧ envelope r)
  ∧ (∀ b, ∃ r, (createAppointment b w).1 = Resolved r ∧ envelope r)
  ∧ (∀ id b, ∃ r, (updateAppointment id b w).1 = Resolved r ∧ envelope r)
  ∧ (∀ id b, ∃ r, (cancelAppointment id b w).1 = Resolved r ∧ envelope r)
  ∧ (∀ id b, ∃ r, (rescheduleAppointment id b w).1 = Resolved r ∧ envelope r)
  ∧ (∀ id d, ∃ r, (getAvailableSlots id d w).1 = Resolved r ∧ envelope r)
  ∧ (∀ id, ∃ r, (deleteAppointment id w).1 = Resolved r ∧ envelope r).
Proof.
  destruct routes_never_reject as (H1 & H2 & H3 & H4 & H5 & H6 & H7).
  repeat split; intros.
  - by apply (triple_answer _ _ _ w (H1 q)).
  - by apply (triple_answer _ _ _ w (H2 b)).
  - by apply (triple_answer _ _ _ w (H3 id b)).
  - by apply (triple_answer _ _ _ w (H4 id b)).
  - by apply (triple_answer _ _ _ w (H5 id b)).
  - by apply (triple_answer _ _ _ w (H6 id d)).
  - by apply (triple_answer _ _ _ w (H7 id)).
Qed.

(** ** Create under any schedule of rejections *)

Lemma sameStores_refl (w : World) : sameStores w w.
Proof. by repeat split. Qed.

(** What a create request can leave behind, whichever operations reject. *)
Lemma create_outcome (b : CreateBody) (w0 : World) :
  triple (sameStores w0) (createAppointment b)
    (λ r w,
       ((code r = 404 ∨ code r = 400)%nat ∧ sameStores w0 w)
       ∨ (r = created (fresh (dom (appointments w0)), new_Appointment b)
          ∧ storedBy b (appointments w0) (appointments w))
       ∨ (code r = 500%nat
          ∧ (appointments w = appointments w0
             ∨ storedBy b (appointments w0) (appointments w))))
    (λ _, False).
Proof.
  set (E := λ w, appointments w = appointments w0
                 ∨ storedBy b (appointments w0) (appointments w)).
  assert (HE : ∀ w, sameStores w0 w → E w) by (intros w (_ & _ & _ & H); by left).
  unfold createAppointment.
  apply triple_tryCatch with (E := E);
    [|intros e; apply triple_json; intros w Hw; right; right; by split].
  unfold_ops.
  eapply (triple_andThen _ _ _ (λ _, sameStores w0));
    [apply triple_await; [apply stable_sameStores | done | done]|].
  intros [practice|]; [|apply triple_json; intros w Hw; left; split; [by left | done]].
  eapply (triple_andThen _ _ _ (λ _, sameStores w0));
    [apply triple_await; [apply stable_sameStores | done | done]|].
  intros [patient|]; [|apply triple_json; intros w Hw; left; split; [by left | done]].
  eapply (triple_andThen _ _ _ (λ _, sameStores w0));
    [apply triple_await; [apply stable_sameStores | done | done]|].
  intros [provider|]; [|apply triple_json; intros w Hw; left; split; [by left | done]].
  eapply (triple_andThen _ _ _
            (λ c w, sameStores w0 w
                    ∧ c = head (select (conflictFilter (body_providerId b)
                                          (body_appointmentDate b) (body_startTime b))
                                       (appointments w0)))).
  { apply triple_await; [apply stable_sameStores | done |].
    intros w Hw. split; [done|]. simpl. by destruct Hw as (_ & _ & _ & ->). }
  intros [doc|]; [apply triple_json; intros w [Hw _]; left; split; [by right | done]|].
  set (S := λ w, storedBy b (appointments w0) (appointments w)).
  eapply (triple_andThen _ _ _
            (λ a w, a = (fresh (dom (appointments w0)), new_Appointment b) ∧ S w)).
  { apply triple_await.
    - intros w w' Hww [Hw ?]. split; [|done]. by apply (stable_sameStores w0 w w').
    - intros w [Hw _]. by apply HE.
    - intros w [(_ & _ & _ & Hw) Hfree]. simpl. rewrite Hw. by repeat split. }
  intros a.
  assert (HS : stable (λ w, a = (fresh (dom (appointments w0)), new_Appointment b) ∧ S w)).
  { intros w w' (_ & _ & _ & Hww) [Ha Hw]. split; [done|]. unfold S. by rewrite Hww. }
  walk (λ w, a = (fresh (dom (appointments w0)), new_Appointment b) ∧ S w)
       ltac:(first [ exact HS
                   | match goal with H : _ ∧ S _ |- E _ => right; apply H end
                   | match goal with H : _ ∧ S _ |- _ ∧ S _ => exact H end ]).
  match goal with H : _ ∧ S _ |- _ => destruct H as [-> H] end.
  right; left. by split.
Qed.

Lemma head_select_None_inv (f : Filter) (m : gmap Id Appointment) (id : Id)
    (a : Appointment) :
  head (select f m) = None → m !! id = Some a → matches f (id, a) = false.
Proof.
  intros Hnone Ha. apply not_true_false. intros Hf.
  destruct (head_select_Some f m id a Ha Hf) as [doc Hdoc]. congruence.
Qed.

Lemma storedBy_noDoubleBooking (b : CreateBody) (m m' : gmap Id Appointment) :
  storedBy b m m' → noDoubleBooking m → noDoubleBooking m'.
Proof.
  intros [Hfree ->] Hm id1 id2 a1 a2 H1 H2 B1 B2 Hslot.
  assert (Hno : ∀ id a, m !! id = Some a → blocking a →
                        ¬ atSlot (body_providerId b) (body_appointmentDate b)
                                 (body_startTime b) a).
  { intros id a Ha Hb Hs.
    pose proof (head_select_None_inv _ _ id a Hfree Ha) as Hf.
    apply not_true_iff_false in Hf. apply Hf. by apply matches_conflictFilter. }
  apply lookup_insert_Some in H1 as [[<- <-]|[N1 H1]];
    apply lookup_insert_Some in H2 as [[<- <-]|[N2 H2]]; try done.
  - destruct (Hno id2 a2 H2 B2). exact Hslot.
  - destruct (Hno id1 a1 H1 B1). destruct Hslot as (Hp & Hd & Ht).
    simpl in Hp, Hd, Ht. by repeat split.
  - by apply (Hm id1 id2 a1 a2).
Qed.

Lemma delete_noDoubleBooking (id : Id) (m : gmap Id Appointment) :
  noDoubleBooking m → noDoubleBooking (delete id m).
Proof.
  intros Hm id1 id2 a1 a2 H1 H2.
  apply lookup_delete_Some in H1 as [_ H1]. apply lookup_delete_Some in H2 as [_ H2].
  by apply Hm.
Qed.

(** X2. A create request, and a delete request, that runs from its first
    awaited operation to its answer with no operation of another request in
    between keeps the collection free of double bookings, whichever of its
    own awaited operations reject: if no two blocking appointments shared
    provider, date and start time when it started, none do when it has
    answered. (The conflict query and the save are two awaits; requests
    whose operations interleave are not covered: a handler is run here as
    one step from world to world.) *)
Theorem create_and_delete_keep_slots_unique (w : World) :
  noDoubleBooking (appointments w) →
  (∀ b, noDoubleBooking (appointments (createAppointment b w).2))
  ∧ (∀ id, noDoubleBooking (appointments (deleteAppointment id w).2)).
Proof.
  intros Hm. split.
  - intros b.
    destruct (triple_answer _ _ _ w (create_outcome b w) (sameStores_refl w))
      as (r & _ & [[_ (_ & _ & _ & ->)]|[[_ Hs]|[_ [->|Hs]]]]); try done.
    all: by apply (storedBy_noDoubleBooking b (appointments w)).
  - intros id. destruct w as [pr pa pv ap fs tr]. simpl in Hm.
    unfold deleteAppointment, tryCatch, andThen, Appointment_findByIdAndDelete, await.
    simpl. destruct fs as [|[e|] rest]; simpl; [|done|].
    all: destruct (ap !! id); simpl; by apply delete_noDoubleBooking.
Qed.

Ltac in_booked H :=
  apply elem_of_map_to_list in H; vm_compute in H;
  repeat (apply elem_of_cons in H as [H|H]; [injection H as -> ->|]);
  [..|by apply elem_of_nil in H].

Lemma noDoubleBooking_booked : noDoubleBooking Clinic.booked.
Proof.
  intros id1 id2 a1 a2 H1 H2 [C1 N1] [C2 N2] (Hp & Hd & Ht).
  in_booked H1; in_booked H2;
    first [reflexivity | by destruct C1 | by destruct N1 | by destruct C2
          | by destruct N2 | discriminate Hd | discriminate Ht].
Defined.

Lemma create_and_delete_keep_slots_unique_witness :
  let w := Clinic.world [None; None; None; None; None; Some "stats write failed"] in
  noDoubleBooking (appointments w)
  ∧ noDoubleBooking
      (appointments
         (createAppointment (Clinic.request 1%N Clinic.jan10 "10:00" "10:30") w).2)
  ∧ noDoubleBooking (appointments (deleteAppointment 10%N w).2).
Proof.
  intros w. split; [exact noDoubleBooking_booked|].
  destruct (create_and_delete_keep_slots_unique w noDoubleBooking_booked) as [Hc Hd].
  split; [apply Hc | apply Hd].
Defined.

(** X3. Whichever awaited operations reject, the code of the answer to a
    create request is 201, 400, 404 or 500, and it tells what happened to
    the collections: after 201 the answer carries the new appointment and
    the collection is the former one with that appointment added under an
    unused id; after 400 or 404 the four collections are as they were. *)
Theorem create_answer_tells_the_store (b : CreateBody) (w : World) :
  ∃ r, (createAppointment b w).1 = Resolved r
       ∧ (code r = 201 ∨ code r = 400 ∨ code r = 404 ∨ code r = 500)%nat
       ∧ (code r = 201%nat →
          r = created (fresh (dom (appointments w)), new_Appointment b)
          ∧ appointments w !! fresh (dom (appointments w)) = None
          ∧ appointments (createAppointment b w).2
            = <[fresh (dom (appointments w)) := new_Appointment b]> (appointments w))
       ∧ ((code r = 400 ∨ code r = 404)%nat → sameStores w (createAppointment b w).2).
Proof.
  destruct (triple_answer _ _ _ w (create_outcome b w) (sameStores_refl w))
    as (r & Hr & Hcases).
  exists r. split; [done|]. destruct Hcases as [[Hc Hs]|[[Hc [_ Hs]]|[Hc Hs]]].
  - split; [lia|]. split; [lia | done].
  - split; [left; by rewrite Hc|]. split.
    + intros _. split; [done|]. split; [apply fresh_id_unused | done].
    + rewrite Hc. simpl. lia.
  - split; [lia|]. split; lia.
Qed.

(** ** Create and delete while no operation rejects *)

Ltac run' :=
  unfold updateAppointment, cancelAppointment, Appointment_findByIdAndUpdate,
    Appointment_cancel, awaitUnlogged;
  run.

(** The answer and the world after a create request on a free slot. *)
Lemma create_healthy_201 (b : CreateBody) (w : World) (r : Response) :
  healthy w →
  (createAppointment b w).1 = Resolved r →
  code r = 201%nat →
  let w' := (createAppointment b w).2 in
  healthy w'
  ∧ r = created (fresh (dom (appointments w)), new_Appointment b)
  ∧ storedBy b (appointments w) (appointments w')
  ∧ is_Some (providers w' !! body_providerId b)
  ∧ (∀ k, is_Some (practices w !! k) → is_Some (practices w' !! k))
  ∧ (∀ k, is_Some (patients w !! k) → is_Some (patients w' !! k)).
Proof.
  intros Hh Hr Hcode w'. subst w'. enter w. revert Hr. run.
  destruct (pr !! body_practiceId b) as [pc|] eqn:Hpc; simpl;
    [|intros [= <-]; discriminate Hcode].
  destruct (pa !! body_patientId b) as [pt|] eqn:Hpt; simpl;
    [|intros [= <-]; discriminate Hcode].
  destruct (pv !! body_providerId b) as [pd|] eqn:Hpd; simpl;
    [|intros [= <-]; discriminate Hcode].
  destruct (head (select _ ap)) as [doc|] eqn:Hfree; simpl;
    [intros [= <-]; discriminate Hcode|].
  intros [= <-]. repeat split; try done.
  - rewrite lookup_insert_eq. eauto.
  - intros k Hk. apply lookup_insert_is_Some'. by right.
  - intros k Hk. apply lookup_insert_is_Some'. by right.
Qed.

(** The answer to a create request whose slot holds a blocking appointment. *)
Lemma create_blocked (b : CreateBody) (w : World) (id : Id) (a : Appointment) :
  healthy w →
  is_Some (practices w !! body_practiceId b) →
  is_Some (patients w !! body_patientId b) →
  is_Some (providers w !! body_providerId b) →
  appointments w !! id = Some a →
  atSlot (body_providerId b) (body_appointmentDate b) (body_startTime b) a →
  blocking a →
  (createAppointment b w).1 = Resolved slotTaken
  ∧ sameStores w (createAppointment b w).2.
Proof.
  intros Hh [pc Hpc] [pt Hpt] [pd Hpd] Ha Hslot Hlive. enter w.
  destruct (head_select_Some
              (conflictFilter (body_providerId b) (body_appointmentDate b) (body_startTime b))
              ap id a Ha) as [doc Hdoc];
    [by apply matches_conflictFilter|].
  run. step Hpc. step Hpt. step Hpd. step Hdoc. done.
Qed.

(** X4. While no operation rejects: after a create request that is answered
    201 and whose appointment is blocking (its status is neither
    'cancelled' nor 'no-show'), a further create request for the same
    provider, date and start time, with a practice and a patient that
    exist, is answered 400 "Time slot already booked for this provider" and
    stores nothing. *)
Theorem create_same_slot_again_is_rejected (b b2 : CreateBody) (w : World)
    (r : Response) :
  healthy w →
  (createAppointment b w).1 = Resolved r →
  code r = 201%nat →
  blocking (new_Appointment b) →
  atSlotOf (new_Appointment b) b2 →
  is_Some (practices w !! body_practiceId b2) →
  is_Some (patients w !! body_patientId b2) →
  let w1 := (createAppointment b w).2 in
  (createAppointment b2 w1).1 = Resolved slotTaken
  ∧ sameStores w1 (createAppointment b2 w1).2.
Proof.
  intros Hh Hr Hcode Hlive (Hp & Hd & Ht) Hpc Hpt w1.
  destruct (create_healthy_201 b w r Hh Hr Hcode)
    as (Hh1 & _ & [_ Hstored] & Hprov & Hprac & Hpat).
  apply (create_blocked b2 w1 (fresh (dom (appointments w))) (new_Appointment b));
    [done | by apply Hprac | by apply Hpat | by rewrite Hp | | | done].
  - subst w1. rewrite Hstored. apply lookup_insert_eq.
  - by rewrite Hp, Hd, Ht.
Qed.

Lemma create_same_slot_again_is_rejected_witness :
  let b := Clinic.request 1%N Clinic.jan10 "10:00" "10:30" in
  let w1 := (createAppointment b (Clinic.world [])).2 in
  (createAppointment b w1).1 = Resolved slotTaken
  ∧ sameStores w1 (createAppointment b w1).2.
Proof.
  intros b w1.
  apply (create_same_slot_again_is_rejected b b (Clinic.world [])
           (created (14%N, new_Appointment b))).
  - reflexivity.
  - vm_compute. reflexivity.
  - reflexivity.
  - split; discriminate.
  - by repeat split.
  - vm_compute. eauto.
  - vm_compute. eauto.
Defined.

(** X5. When the first rejection of a create request comes at one of the
    four operations before the save (the three lookups and the conflict
    query), the answer is not 201 and the four collections are as they
    were. *)
Theorem create_rejection_before_save_stores_nothing (b : CreateBody) (w : World)
    (k : nat) (e : string) (rest : list (option string)) :
  faults w = replicate k None ++ Some e :: rest →
  (k < 4)%nat →
  sameStores w (createAppointment b w).2
  ∧ ∃ r, (createAppointment b w).1 = Resolved r
         ∧ (code r = 400 ∨ code r = 404 ∨ code r = 500)%nat.
Proof.
  intros Hf Hk. destruct w as [pr pa pv ap fs tr]; simpl in *; subst fs.
  unfold sameStores.
  destruct k as [|[|[|[|k]]]]; [..|lia]; clear Hk; run.
  all: repeat match goal with
              | |- context [match ?m !! ?i with _ => _ end] =>
                  destruct (m !! i); simpl
              end.
  all: split; [done|]; eexists; split; [reflexivity|]; simpl.
  all: first [by left | by right; left | by right; right].
Qed.

Lemma create_rejection_before_save_stores_nothing_witness :
  let b := Clinic.request 1%N Clinic.jan10 "10:00" "10:30" in
  let w := Clinic.world [None; None; None; Some "connection lost"] in
  sameStores w (createAppointment b w).2
  ∧ (createAppointment b w).1 = Resolved (createFailed "connection lost").
Proof.
  intros b w.
  destruct (create_rejection_before_save_stores_nothing b w 3 "connection lost" [])
    as [Hs _]; [reflexivity | lia |].
  split; [exact Hs | vm_compute; reflexivity].
Defined.

(** What the delete route does while no operation rejects. *)
Lemma delete_healthy (id : Id) (w : World) :
  healthy w →
  deleteAppointment id w
  = (Resolved (match appointments w !! id with
               | Some _ => deleted
               | None => appointmentNotFound
               end),
     set_appointments (delete id (appointments w)) (log (FindByIdAndDelete id) w)).
Proof. intros Hh. enter w. run. by destruct (ap !! id). Qed.

(** X6. While no operation rejects: deleting the appointment that a create
    request has just answered with is answered 200, and the collection of
    appointments is again what it was before the create request. *)
Theorem create_then_delete_restores (b : CreateBody) (w : World) (id : Id)
    (a : Appointment) :
  healthy w →
  (createAppointment b w).1 = Resolved (created (id, a)) →
  let w1 := (createAppointment b w).2 in
  (deleteAppointment id w1).1 = Resolved deleted
  ∧ appointments (deleteAppointment id w1).2 = appointments w.
Proof.
  intros Hh Hr w1.
  destruct (create_healthy_201 b w _ Hh Hr eq_refl) as (Hh1 & Hc & [_ Hstored] & _).
  injection Hc as -> ->. fold w1 in Hh1, Hstored.
  rewrite (delete_healthy _ w1 Hh1). simpl. rewrite Hstored.
  rewrite lookup_insert_eq. split; [done|].
  apply delete_insert_id, fresh_id_unused.
Qed.

Lemma create_then_delete_restores_witness :
  let b := Clinic.request 1%N Clinic.jan10 "10:00" "10:30" in
  let w1 := (createAppointment b (Clinic.world [])).2 in
  (deleteAppointment 14%N w1).1 = Resolved deleted
  ∧ appointments (deleteAppointment 14%N w1).2 = Clinic.booked.
Proof.
  intros b w1.
  apply (create_then_delete_restores b (Clinic.world []) 14%N (new_Appointment b)).
  - reflexivity.
  - vm_compute. reflexivity.
Defined.

(** X7. While no operation rejects, deleting the same id a second time is
    answered 404 "Appointment not found" and changes nothing, whether or not
    the first request found the id. *)
Theorem delete_twice_is_404 (id : Id) (w : World) :
  healthy w →
  let w1 := (deleteAppointment id w).2 in
  (deleteAppointment id w1).1 = Resolved appointmentNotFound
  ∧ sameStores w1 (deleteAppointment id w1).2.
Proof.
  intros Hh w1. subst w1. rewrite (delete_healthy id w Hh). simpl.
  rewrite delete_healthy by exact Hh. simpl.
  rewrite lookup_delete_eq. repeat split. simpl. apply delete_id, lookup_delete_eq.
Qed.

Lemma delete_twice_is_404_witness :
  let w1 := (deleteAppointment 10%N (Clinic.world [])).2 in
  (deleteAppointment 10%N (Clinic.world [])).1 = Resolved deleted
  ∧ (deleteAppointment 10%N w1).1 = Resolved appointmentNotFound
  ∧ sameStores w1 (deleteAppointment 10%N w1).2.
Proof.
  intros w1. split; [vm_compute; reflexivity|].
  apply (delete_twice_is_404 10%N (Clinic.world [])). reflexivity.
Defined.

(** ** The read routes *)

(** X8. Whichever awaited operations reject, the list route and the slots
    route leave the four collections as they were. *)
Theorem read_routes_change_nothing (w : World) :
  (∀ q, sameStores w (getAppointments q w).2)
  ∧ (∀ id d, sameStores w (getAvailableSlots id d w).2).
Proof.
  assert (Hlist : ∀ q, triple (sameStores w) (getAppointments q)
                              (λ _, sameStores w) (λ _, False)).
  { intros q. unfold_routes.
    eapply triple_tryCatch with (E := sameStores w);
      [|intros e; apply triple_json; by intros ? ?].
    unfold_ops.
    walk (sameStores w) ltac:(first [apply stable_sameStores | simpl; assumption]).
    assumption. }
  assert (Hslots : ∀ id d, triple (sameStores w) (getAvailableSlots id d)
                                  (λ _, sameStores w) (λ _, False)).
  { intros id d. unfold_routes.
    eapply triple_tryCatch with (E := sameStores w);
      [|intros e; apply triple_json; by intros ? ?].
    unfold_ops.
    walk (sameStores w) ltac:(first [apply stable_sameStores | simpl; assumption]).
    all: assumption. }
  split.
  - intros q.
    by destruct (triple_answer _ _ _ w (Hlist q) (sameStores_refl w)) as (r & _ & H).
  - intros id d.
    by destruct (triple_answer _ _ _ w (Hslots id d) (sameStores_refl w)) as (r & _ & H).
Qed.

(** Two list queries that build the same filters get the same answer. *)
Lemma getAppointments_ext (q q' : ListQuery) (w : World) :
  (∀ m, select (listFilters q) m = select (listFilters q') m) →
  getAppointments q w = getAppointments q' w.
Proof.
  intros Hsel. unfold getAppointments, tryCatch, andThen, Appointment_find_sorted, await.
  simpl. destruct (faults w) as [|[e|] rest]; simpl; by rewrite ?Hsel.
Qed.

(** X9. When the list request has a [date], [startDate] and [endDate] are
    not looked at: the answer is that of the request without them. *)
Theorem list_date_overrides_range (q : ListQuery) (w : World) (D : Date) :
  query_date q = Some D →
  getAppointments q w = getAppointments (withoutRange q) w.
Proof.
  intros HD. apply getAppointments_ext. intros m.
  unfold listFilters, withoutRange; simpl. by rewrite HD.
Qed.

Lemma list_date_overrides_range_witness :
  let q := mkListQuery None None None None (Some Clinic.jan10)
                       (Some Clinic.jan14) (Some Clinic.jan14) in
  getAppointments q (Clinic.world []) = getAppointments (withoutRange q) (Clinic.world [])
  ∧ idsOf (getAppointments q (Clinic.world [])).1 = [13%N; 10%N; 11%N].
Proof.
  intros q. split; [|vm_compute; reflexivity].
  by apply (list_date_overrides_range q (Clinic.world []) Clinic.jan10).
Defined.

Lemma filter_all {X} (p : X → bool) (l : list X) :
  (∀ x, p x = true) → List.filter p l = l.
Proof.
  intros Hp. induction l as [|x l IH]; [done|]. simpl. by rewrite Hp, IH.
Qed.

Lemma filter_none {X} (p : X → bool) (l : list X) :
  (∀ x, p x = false) → List.filter p l = [].
Proof.
  intros Hp. induction l as [|x l IH]; [done|]. simpl. by rewrite Hp, IH.
Qed.

(** X10. While no operation rejects, a list request without any parameter
    is answered with every appointment of the collection, each once: the
    documents are a permutation of the collection and [count] is its
    size. *)
Theorem list_without_parameters_returns_all (w : World) :
  healthy w →
  (getAppointments noQuery w).1
  = Resolved (listing (populate w <$> listedDocs noQuery w))
  ∧ listedDocs noQuery w ≡ₚ map_to_list (appointments w)
  ∧ count (body (listing (populate w <$> listedDocs noQuery w)))
    = Some (size (appointments w)).
Proof.
  intros Hh.
  assert (Hperm : listedDocs noQuery w ≡ₚ map_to_list (appointments w)).
  { unfold listedDocs. rewrite merge_sort_Permutation. unfold select.
    rewrite filter_all; [done|]. by intros [id a]. }
  split; [by rewrite getAppointments_healthy|]. split; [done|].
  simpl. by rewrite length_fmap, Hperm, length_map_to_list.
Qed.

Lemma list_without_parameters_returns_all_witness :
  (getAppointments noQuery (Clinic.world [])).1
  = Resolved (listing (populate (Clinic.world [])
                         <$> listedDocs noQuery (Clinic.world [])))
  ∧ idsOf (getAppointments noQuery (Clinic.world [])).1 = [13%N; 10%N; 11%N; 12%N].
Proof.
  destruct (list_without_parameters_returns_all (Clinic.world [])) as (Hr & _);
    [reflexivity|].
  split; [exact Hr | vm_compute; reflexivity].
Defined.

(** X11. While no operation rejects, a list request without [date] whose
    [endDate] is before its [startDate] is answered with an empty list and
    [count] 0. *)
Theorem list_inverted_range_is_empty (q : ListQuery) (w : World) (A B : Date) :
  healthy w →
  query_date q = None →
  query_startDate q = Some A →
  query_endDate q = Some B →
  B < A →
  (getAppointments q w).1 = Resolved (listing []).
Proof.
  intros Hh HD HA HB Hlt. rewrite getAppointments_healthy by done. simpl.
  unfold listedDocs, select. rewrite filter_none; [done|].
  intros [id a]. apply not_true_false. rewrite matches_listFilters.
  unfold listFilters; simpl. rewrite HD, HA, HB; simpl.
  rewrite andb_true_iff, !Z.leb_le. lia.
Qed.

Lemma list_inverted_range_is_empty_witness :
  (getAppointments (mkListQuery None None None None None
                                (Some Clinic.jan14) (Some Clinic.jan10))
                   (Clinic.world [])).1
  = Resolved (listing []).
Proof.
  apply (list_inverted_range_is_empty _ (Clinic.world []) Clinic.jan14 Clinic.jan10);
    try reflexivity.
Defined.

(** X12. A list request with [date = D], where the day after [D] is still
    within the range of dates, is answered as the request with
    [startDate = D] and [endDate] one millisecond before the next day, the
    other parameters being the same. *)
Theorem list_date_is_the_range_of_its_day (q : ListQuery) (w : World) (D : Date) :
  query_date q = Some D →
  D + msPerDay ≤ maxDate →
  getAppointments q w = getAppointments (asRange q D (D + msPerDay - 1)) w.
Proof.
  intros HD _. apply getAppointments_ext. intros m. unfold select.
  apply List.filter_ext. intros [id a].
  unfold matches, listFilters, asRange; simpl. rewrite HD; simpl.
  do 2 f_equal. unfold nextDay.
  destruct (Z.ltb_spec (appointmentDate a) (D + msPerDay)),
           (Z.leb_spec (appointmentDate a) (D + msPerDay - 1)); try done; lia.
Qed.

Lemma list_date_is_the_range_of_its_day_witness :
  let q := mkListQuery None None None None (Some Clinic.jan10) None None in
  getAppointments q (Clinic.world [])
  = getAppointments (asRange q Clinic.jan10 1704931199999) (Clinic.world [])
  ∧ idsOf (getAppointments q (Clinic.world [])).1 = [13%N; 10%N; 11%N].
Proof.
  intros q. split; [|vm_compute; reflexivity].
  apply (list_date_is_the_range_of_its_day q (Clinic.world []) Clinic.jan10);
    [reflexivity | unfold Clinic.jan10, msPerDay, maxDate; lia].
Defined.

(** ** Available slots *)

(** X13. A slots request without [date] is answered 400 "Date is required"
    before anything is awaited, whatever the provider id, the collections
    and the schedule of rejections are; with a date and, while no operation
    rejects, a provider id that the collection does not have, it is
    answered 404 "Provider not found" after the provider lookup alone. *)
Theorem slots_need_date_then_provider (id : Id) (w : World) :
  getAvailableSlots id None w = (Resolved dateRequired, w)
  ∧ (healthy w → providers w !! id = None →
     ∀ d, (getAvailableSlots id (Some d) w).1 = Resolved providerNotFound
          ∧ sameStores w (getAvailableSlots id (Some d) w).2
          ∧ trace (getAvailableSlots id (Some d) w).2
            = trace w ++ [FindById Providers id]).
Proof.
  split; [done|]. intros Hh Hnone d. enter w. run. step Hnone. done.
Qed.

Lemma slots_need_date_then_provider_witness :
  getAvailableSlots 7%N None (Clinic.world [Some "connection lost"])
  = (Resolved dateRequired, Clinic.world [Some "connection lost"])
  ∧ (getAvailableSlots 7%N (Some Clinic.jan10) (Clinic.world [])).1
    = Resolved providerNotFound
  ∧ trace (getAvailableSlots 7%N (Some Clinic.jan10) (Clinic.world [])).2
    = [FindById Providers 7%N].
Proof.
  destruct (slots_need_date_then_provider 7%N (Clinic.world [Some "connection lost"]))
    as [Hdate _].
  destruct (slots_need_date_then_provider 7%N (Clinic.world [])) as [_ Hprov].
  destruct (Hprov eq_refl eq_refl Clinic.jan10) as (Hr & _ & Ht).
  split; [exact Hdate|]. split; [exact Hr | exact Ht].
Defined.

Lemma matches_slotsFilter (provider : Id) (d : Date) (id : Id) (a : Appointment) :
  matches (slotsFilter provider d) (id, a) = true ↔ bookedOn provider d a.
Proof.
  unfold matches, slotsFilter, bookedOn, blocking, nextDay; simpl.
  rewrite !andb_true_r, !andb_true_iff, negb_true_iff, bool_decide_eq_true,
    bool_decide_eq_false, Z.leb_le, Z.ltb_lt.
  rewrite !elem_of_cons, elem_of_nil. tauto.
Qed.

(** X14. While no operation rejects, for a provider that exists and a date
    whose next day is still within the range of dates, on a day of the week
    that the provider's schedule marks available, the slots route answers 200 with the date, the provider's full name, that
    day's schedule and [bookedTimes]: the start times of exactly the
    provider's appointments dated in [date, date + 1 day) whose status is
    neither 'cancelled' nor 'no-show', one entry per appointment. It lists
    no available slot ([availableSlots] is absent). *)
Theorem slots_report_booked_times (id : Id) (d : Date) (w : World) (p : Provider)
    (dayName : string) (s : DaySchedule) :
  healthy w →
  d + msPerDay ≤ maxDate →
  providers w !! id = Some p →
  days !! getDay d = Some dayName →
  schedule p !! dayName = Some s →
  available s = true →
  ∃ times,
    (getAvailableSlots id (Some d) w).1 = Resolved (bookedTimesOf d p s times)
    ∧ availableSlots (body (bookedTimesOf d p s times)) = None
    ∧ (∀ t, t ∈ times ↔ ∃ i a, appointments w !! i = Some a ∧ bookedOn id d a
                               ∧ startTime a = t)
    ∧ length times = countWhere (bookedOn id d) (appointments w).
Proof.
  intros Hh _ Hp Hday Hs Hav.
  exists ((λ doc : Id * Appointment, startTime doc.2)
            <$> select (slotsFilter id d) (appointments w)).
  split; [|split; [done|split]].
  - enter w. run. step Hp. step Hday. step Hs. step Hav.
    unfold bookedTimesOf, slotsFilter. by rewrite <- list_fmap_compose.
  - intros t. rewrite list_elem_of_fmap. split.
    + intros ([i a] & -> & Hin). apply elem_of_select in Hin as [Ha Hf].
      exists i, a. by rewrite <- matches_slotsFilter.
    + intros (i & a & Ha & Hb & <-). exists (i, a). split; [done|].
      apply elem_of_select. by rewrite matches_slotsFilter.
  - rewrite length_fmap. unfold select, countWhere. apply length_filter_bool.
    intros [i a]. apply matches_slotsFilter.
Qed.

Lemma slots_report_booked_times_witness :
  let w := Clinic.world [] in
  let s := mkDaySchedule true "09:00-17:00" in
  (∃ times,
     (getAvailableSlots 3%N (Some Clinic.jan10) w).1
     = Resolved (bookedTimesOf Clinic.jan10 Clinic.drLee s times)
     ∧ length times = countWhere (bookedOn 3%N Clinic.jan10) (appointments w))
  ∧ (getAvailableSlots 3%N (Some Clinic.jan10) w).1
    = Resolved (bookedTimesOf Clinic.jan10 Clinic.drLee s ["09:00"]).
Proof.
  intros w s. split; [|vm_compute; reflexivity].
  destruct (slots_report_booked_times 3%N Clinic.jan10 w Clinic.drLee "wednesday" s)
    as (times & Hr & _ & _ & Hlen);
    [reflexivity | unfold Clinic.jan10, msPerDay, maxDate; lia
    | vm_compute; reflexivity ..|].
  exists times. by split.
Defined.

(** ** Update, cancel and reschedule *)

(** X15. While no operation rejects, the update, cancel and reschedule
    routes answer 404 "Appointment not found" for an id that the collection
    does not have, and leave the four collections as they were. *)
Theorem unknown_appointment_is_404 (id : Id) (w : World) :
  healthy w →
  appointments w !! id = None →
  (∀ b, (updateAppointment id b w).1 = Resolved appointmentNotFound
        ∧ sameStores w (updateAppointment id b w).2)
  ∧ (∀ b, (cancelAppointment id b w).1 = Resolved appointmentNotFound
          ∧ sameStores w (cancelAppointment id b w).2)
  ∧ (∀ b, (rescheduleAppointment id b w).1 = Resolved appointmentNotFound
          ∧ sameStores w (rescheduleAppointment id b w).2).
Proof.
  intros Hh Hnone. enter w. repeat split; run'; step Hnone; done.
Qed.

Lemma unknown_appointment_is_404_witness :
  (updateAppointment 99%N (toStatus "completed") (Clinic.world [])).1
  = Resolved appointmentNotFound
  ∧ (cancelAppointment 99%N (mkCancelBody "patient" "moved away") (Clinic.world [])).1
    = Resolved appointmentNotFound
  ∧ (rescheduleAppointment 99%N
       (mkRescheduleBody Clinic.jan14 "11:00" "11:30" "asked") (Clinic.world [])).1
    = Resolved appointmentNotFound.
Proof.
  destruct (unknown_appointment_is_404 99%N (Clinic.world [])) as (Hu & Hc & Hr);
    [reflexivity | vm_compute; reflexivity |].
  split; [apply Hu|]. split; [apply Hc | apply Hr].
Defined.

(** What the update route does to an appointment it finds, while no
    operation rejects. *)
Lemma update_healthy (id : Id) (b : UpdateBody) (w : World) (a : Appointment) :
  healthy w →
  appointments w !! id = Some a →
  updateAppointment id b w
  = (Resolved (updated (id, applySet b a)),
     set_appointments (<[id := applySet b a]> (appointments w)) w).
Proof. intros Hh Ha. enter w. run'. step Ha. done. Qed.

(** X16. While no operation rejects, updating an appointment that exists is
    answered 200 with the document after the update; in the collection that
    document has taken the fields of the body and kept its others, every
    other appointment is as it was, and so are the practices, the patients
    and the providers with their statistics. A body without fields changes
    nothing. *)
Theorem update_sets_fields_of_one_appointment (id : Id) (b : UpdateBody) (w : World)
    (a : Appointment) :
  healthy w →
  appointments w !! id = Some a →
  let r := updateAppointment id b w in
  r.1 = Resolved (updated (id, applySet b a))
  ∧ appointments r.2 !! id = Some (applySet b a)
  ∧ (∀ id2, id2 ≠ id → appointments r.2 !! id2 = appointments w !! id2)
  ∧ practices r.2 = practices w ∧ patients r.2 = patients w
  ∧ providers r.2 = providers w
  ∧ (b = noFields → sameStores w r.2).
Proof.
  intros Hh Ha r. subst r. rewrite (update_healthy id b w a Hh Ha). simpl.
  repeat split.
  - apply lookup_insert_eq.
  - intros id2 Hne. by apply lookup_insert_ne.
  - subst b. simpl. apply insert_id. by destruct a.
Qed.

Lemma update_sets_fields_of_one_appointment_witness :
  let r := updateAppointment 10%N (toStatus "completed") (Clinic.world []) in
  r.1 = Resolved (updated (10%N, Clinic.visit Clinic.jan10 "09:00" "09:30" "completed"))
  ∧ appointments r.2 !! 10%N
    = Some (Clinic.visit Clinic.jan10 "09:00" "09:30" "completed")
  ∧ appointments r.2 !! 12%N = Clinic.booked !! 12%N.
Proof.
  intros r.
  destruct (update_sets_fields_of_one_appointment 10%N (toStatus "completed")
              (Clinic.world []) (Clinic.visit Clinic.jan10 "09:00" "09:30" "scheduled"))
    as (Hr & Hid & Hother & _); [reflexivity | vm_compute; reflexivity |].
  split; [exact Hr|]. split; [exact Hid|]. by apply Hother.
Defined.

(** X17. The update route makes no conflict query: while no operation
    rejects, moving a blocking appointment onto the provider, date and
    start time of another blocking appointment is answered 200, and
    afterwards the collection holds both at that slot, a double booking. *)
Theorem update_can_double_book (id1 id2 : Id) (a1 a2 : Appointment) (w : World) :
  healthy w →
  id1 ≠ id2 →
  appointments w !! id1 = Some a1 →
  appointments w !! id2 = Some a2 →
  blocking a1 →
  blocking a2 →
  let b := toSlot (providerId a2) (appointmentDate a2) (startTime a2) in
  let r := updateAppointment id1 b w in
  r.1 = Resolved (updated (id1, applySet b a1))
  ∧ appointments r.2 !! id1 = Some (applySet b a1)
  ∧ appointments r.2 !! id2 = Some a2
  ∧ blocking (applySet b a1)
  ∧ atSlot (providerId a2) (appointmentDate a2) (startTime a2) (applySet b a1)
  ∧ ¬ noDoubleBooking (appointments r.2).
Proof.
  intros Hh Hne H1 H2 B1 B2 b r. subst r.
  rewrite (update_healthy id1 b w a1 Hh H1). simpl.
  assert (G1 : <[id1 := applySet b a1]> (appointments w) !! id1 = Some (applySet b a1))
    by apply lookup_insert_eq.
  assert (G2 : <[id1 := applySet b a1]> (appointments w) !! id2 = Some a2)
    by by rewrite lookup_insert_ne.
  assert (B1' : blocking (applySet b a1)) by exact B1.
  assert (Hslot : atSlot (providerId a2) (appointmentDate a2) (startTime a2)
                         (applySet b a1)) by by repeat split.
  split; [done|]. split; [done|]. split; [done|]. split; [done|]. split; [done|].
  intros Hno. apply Hne. symmetry.
  by apply (Hno id2 id1 a2 (applySet b a1) G2 G1).
Qed.

Lemma update_can_double_book_witness :
  let b := toSlot 3%N Clinic.jan10 "09:00" in
  let r := updateAppointment 12%N b (Clinic.world []) in
  noDoubleBooking (appointments (Clinic.world []))
  ∧ r.1 = Resolved (updated (12%N, Clinic.visit Clinic.jan10 "09:00" "09:30" "completed"))
  ∧ ¬ noDoubleBooking (appointments r.2).
Proof.
  intros b r. split; [exact noDoubleBooking_booked|].
  destruct (update_can_double_book 12%N 10%N
              (Clinic.visit Clinic.jan14 "09:00" "09:30" "completed")
              (Clinic.visit Clinic.jan10 "09:00" "09:30" "scheduled")
              (Clinic.world []))
    as (Hr & _ & _ & _ & _ & Hno);
    [reflexivity | discriminate | vm_compute; reflexivity | vm_compute; reflexivity
    | split; discriminate | split; discriminate |].
  split; [exact Hr | exact Hno].
Defined.

(** The answer to a create request whose slot is free. *)
Lemma create_free (b : CreateBody) (w : World) :
  healthy w →
  is_Some (practices w !! body_practiceId b) →
  is_Some (patients w !! body_patientId b) →
  is_Some (providers w !! body_providerId b) →
  head (select (conflictFilter (body_providerId b) (body_appointmentDate b)
                               (body_startTime b)) (appointments w)) = None →
  (createAppointment b w).1
  = Resolved (created (fresh (dom (appointments w)), new_Appointment b)).
Proof.
  intros Hh [pc Hpc] [pt Hpt] [pd Hpd] Hfree. enter w.
  run. step Hpc. step Hpt. step Hpd. step Hfree. done.
Qed.

(** X18. While no operation rejects and the collection has no double
    booking: a create request for the slot of a blocking appointment is
    answered 400; once the update route has set that appointment's status
    to 'cancelled', the same request is answered 201. *)
Theorem update_to_cancelled_frees_the_slot (id : Id) (a : Appointment)
    (b : CreateBody) (w : World) :
  healthy w →
  noDoubleBooking (appointments w) →
  appointments w !! id = Some a →
  blocking a →
  atSlotOf a b →
  is_Some (practices w !! body_practiceId b) →
  is_Some (patients w !! body_patientId b) →
  is_Some (providers w !! body_providerId b) →
  let w1 := (updateAppointment id (toStatus "cancelled") w).2 in
  (createAppointment b w).1 = Resolved slotTaken
  ∧ (createAppointment b w1).1
    = Resolved (created (fresh (dom (appointments w1)), new_Appointment b)).
Proof.
  intros Hh Hno Ha Hlive (Hp & Hd & Ht) Hpc Hpt Hpd w1. split.
  - by apply (create_blocked b w id a).
  - subst w1. rewrite (update_healthy id _ w a Hh Ha). simpl.
    apply create_free; try done. simpl.
    apply head_select_None. intros id2 a2 Ha2. apply not_true_false.
    rewrite matches_conflictFilter. intros [(Gp & Gd & Gt) Hb2].
    apply lookup_insert_Some in Ha2 as [[<- <-]|[Hne Ha2]].
    + by destruct Hb2 as [Hc _].
    + apply Hne. apply (Hno id id2 a a2 Ha Ha2 Hlive Hb2).
      repeat split; congruence.
Qed.

Lemma update_to_cancelled_frees_the_slot_witness :
  let b := Clinic.request 1%N Clinic.jan10 "09:00" "09:30" in
  let w1 := (updateAppointment 10%N (toStatus "cancelled") (Clinic.world [])).2 in
  (createAppointment b (Clinic.world [])).1 = Resolved slotTaken
  ∧ (createAppointment b w1).1
    = Resolved (created (fresh (dom (appointments w1)), new_Appointment b)).
Proof.
  intros b w1.
  apply (update_to_cancelled_frees_the_slot 10%N
           (Clinic.visit Clinic.jan10 "09:00" "09:30" "scheduled") b (Clinic.world [])).
  - reflexivity.
  - exact noDoubleBooking_booked.
  - vm_compute. reflexivity.
  - split; discriminate.
  - by repeat split.
  - vm_compute. eauto.
  - vm_compute. eauto.
  - vm_compute. eauto.
Defined.

(** What the cancel route does to an appointment it finds, while no
    operation rejects. *)
Lemma cancel_healthy (id : Id) (b : CancelBody) (w : World) (a : Appointment) :
  healthy w →
  appointments w !! id = Some a →
  let w' := (cancelAppointment id b w).2 in
  (cancelAppointment id b w).1 = Resolved (cancelled (id, asCancelled a))
  ∧ healthy w'
  ∧ appointments w' = <[id := asCancelled a]> (appointments w)
  ∧ practices w' = practices w ∧ providers w' = providers w
  ∧ patients w' = match patients w !! patientId a with
                  | Some p => <[patientId a := withOneMoreCancelled p]> (patients w)
                  | None => patients w
                  end
  ∧ trace w' = trace w ++ [FindById Appointments id; FindById Patients (patientId a)]
                       ++ match patients w !! patientId a with
                          | Some _ => [UpdateStats Patients (patientId a)]
                          | None => []
                          end.
Proof.
  intros Hh Ha w'. subst w'. enter w. run'. step Ha.
  destruct (pa !! patientId a) as [p|]; simpl; rewrite <- ?app_assoc; done.
Qed.

(** X19. While no operation rejects, cancelling an appointment whose
    patient exists is answered 200 and raises that patient's
    [stats.cancelledAppointments] by one, from 0 when the counter was not
    set; the patient's [nextAppointment] is kept. *)
Theorem cancel_counts_one_more (id : Id) (b : CancelBody) (w : World)
    (a : Appointment) (p : Patient) :
  healthy w →
  appointments w !! id = Some a →
  patients w !! patientId a = Some p →
  let r := cancelAppointment id b w in
  (∃ doc, r.1 = Resolved (cancelled doc))
  ∧ ∃ p', patients r.2 !! patientId a = Some p'
          ∧ cancelledAppointments (patient_stats p')
            = Some (default 0 (cancelledAppointments (patient_stats p)) + 1)%nat
          ∧ nextAppointment (patient_stats p') = nextAppointment (patient_stats p).
Proof.
  intros Hh Ha Hp r. subst r.
  destruct (cancel_healthy id b w a Hh Ha) as (Hr & _ & _ & _ & _ & Hpat & _).
  rewrite Hp in Hpat. split; [eauto|].
  exists (withOneMoreCancelled p). rewrite Hpat, lookup_insert_eq. done.
Qed.

Lemma cancel_counts_one_more_witness :
  let r := cancelAppointment 10%N (mkCancelBody "patient" "ill") (Clinic.world []) in
  (∃ doc, r.1 = Resolved (cancelled doc))
  ∧ ∃ p', patients r.2 !! 2%N = Some p'
          ∧ cancelledAppointments (patient_stats p') = Some 1%nat
          ∧ nextAppointment (patient_stats p') = None.
Proof.
  apply (cancel_counts_one_more 10%N (mkCancelBody "patient" "ill") (Clinic.world [])
           (Clinic.visit Clinic.jan10 "09:00" "09:30" "scheduled") Clinic.ana).
  - reflexivity.
  - vm_compute. reflexivity.
  - vm_compute. reflexivity.
Defined.

(** X20. The cancel route does not look at the appointment's status: while
    no operation rejects, cancelling the same appointment twice is answered
    200 both times and counts two cancelled appointments for the patient. *)
Theorem cancel_twice_counts_twice (id : Id) (b : CancelBody) (w : World)
    (a : Appointment) (p : Patient) :
  healthy w →
  appointments w !! id = Some a →
  patients w !! patientId a = Some p →
  let w1 := (cancelAppointment id b w).2 in
  let r := cancelAppointment id b w1 in
  (∃ doc, (cancelAppointment id b w).1 = Resolved (cancelled doc))
  ∧ (∃ doc, r.1 = Resolved (cancelled doc))
  ∧ ∃ p', patients r.2 !! patientId a = Some p'
          ∧ cancelledAppointments (patient_stats p')
            = Some (default 0 (cancelledAppointments (patient_stats p)) + 2)%nat.
Proof.
  intros Hh Ha Hp w1 r. subst r.
  destruct (cancel_healthy id b w a Hh Ha) as (Hr & Hh1 & Hap & _ & _ & Hpat & _).
  fold w1 in Hh1, Hap, Hpat. rewrite Hp in Hpat.
  assert (Ha1 : appointments w1 !! id = Some (asCancelled a))
    by (rewrite Hap; apply lookup_insert_eq).
  assert (Hp1 : patients w1 !! patientId a = Some (withOneMoreCancelled p))
    by (rewrite Hpat; apply lookup_insert_eq).
  destruct (cancel_healthy id b w1 (asCancelled a) Hh1 Ha1)
    as (Hr2 & _ & _ & _ & _ & Hpat2 & _).
  simpl in Hpat2. rewrite Hp1 in Hpat2.
  split; [eauto|]. split; [eauto|].
  exists (withOneMoreCancelled (withOneMoreCancelled p)).
  rewrite Hpat2, lookup_insert_eq. split; [done|].
  simpl. unfold oneMoreCancelled at 1. simpl. unfold oneMoreCancelled. f_equal. lia.
Qed.

Lemma cancel_twice_counts_twice_witness :
  let b := mkCancelBody "patient" "ill" in
  let w1 := (cancelAppointment 10%N b (Clinic.world [])).2 in
  let r := cancelAppointment 10%N b w1 in
  (∃ doc, (cancelAppointment 10%N b (Clinic.world [])).1 = Resolved (cancelled doc))
  ∧ (∃ doc, r.1 = Resolved (cancelled doc))
  ∧ ∃ p', patients r.2 !! 2%N = Some p'
          ∧ cancelledAppointments (patient_stats p') = Some 2%nat.
Proof.
  apply (cancel_twice_counts_twice 10%N (mkCancelBody "patient" "ill") (Clinic.world [])
           (Clinic.visit Clinic.jan10 "09:00" "09:30" "scheduled") Clinic.ana).
  - reflexivity.
  - vm_compute. reflexivity.
  - vm_compute. reflexivity.
Defined.

(** X21. While no operation rejects, cancelling an appointment whose
    patient does not exist is still answered 200: the patient lookup is
    awaited, no statistics update is, and the patients are as they were. *)
Theorem cancel_without_patient (id : Id) (b : CancelBody) (w : World)
    (a : Appointment) :
  healthy w →
  appointments w !! id = Some a →
  patients w !! patientId a = None →
  let r := cancelAppointment id b w in
  (∃ doc, r.1 = Resolved (cancelled doc))
  ∧ patients r.2 = patients w
  ∧ trace r.2 = trace w ++ [FindById Appointments id; FindById Patients (patientId a)].
Proof.
  intros Hh Ha Hp r. subst r.
  destruct (cancel_healthy id b w a Hh Ha) as (Hr & _ & _ & _ & _ & Hpat & Htr).
  rewrite Hp in Hpat, Htr. rewrite app_nil_r in Htr. eauto.
Qed.

Lemma cancel_without_patient_witness :
  let w := mkWorld ∅ ∅ ∅ {[ 5%N := Clinic.visit Clinic.jan10 "09:00" "09:30" "scheduled" ]}
                   [] [] in
  let r := cancelAppointment 5%N (mkCancelBody "front desk" "duplicate") w in
  (∃ doc, r.1 = Resolved (cancelled doc))
  ∧ patients r.2 = ∅
  ∧ trace r.2 = [FindById Appointments 5%N; FindById Patients 2%N].
Proof.
  intros w.
  apply (cancel_without_patient 5%N (mkCancelBody "front desk" "duplicate") w
           (Clinic.visit Clinic.jan10 "09:00" "09:30" "scheduled")).
  - reflexivity.
  - vm_compute. reflexivity.
  - vm_compute. reflexivity.
Defined.

(** ** The catch blocks *)

(** X22. When the first operation a route awaits rejects with message [e],
    the route answers 500 with its own error text and [e] as details, and
    the four collections are as they were. *)
Theorem first_rejection_is_500 (w : World) (e : string) (rest : list (option string)) :
  faults w = Some e :: rest →
  (∀ q, (getAppointments q w).1
        = Resolved (internalError "Failed to fetch appointments" e)
        ∧ sameStores w (getAppointments q w).2)
  ∧ (∀ b, (createAppointment b w).1
          = Resolved (internalError "Failed to create appointment" e)
          ∧ sameStores w (createAppointment b w).2)
  ∧ (∀ id b, (updateAppointment id b w).1
             = Resolved (internalError "Failed to update appointment" e)
             ∧ sameStores w (updateAppointment id b w).2)
  ∧ (∀ id b, (cancelAppointment id b w).1
             = Resolved (internalError "Failed to cancel appointment" e)
             ∧ sameStores w (cancelAppointment id b w).2)
  ∧ (∀ id b, (rescheduleAppointment id b w).1
             = Resolved (internalError "Failed to reschedule appointment" e)
             ∧ sameStores w (rescheduleAppointment id b w).2)
  ∧ (∀ id d, (getAvailableSlots id (Some d) w).1
             = Resolved (internalError "Failed to fetch available slots" e)
             ∧ sameStores w (getAvailableSlots id (Some d) w).2)
  ∧ (∀ id, (deleteAppointment id w).1
           = Resolved (internalError "Failed to delete appointment" e)
           ∧ sameStores w (deleteAppointment id w).2).
Proof.
  intros Hf. destruct w as [pr pa pv ap fs tr]; simpl in *; subst fs.
  unfold sameStores. repeat split.
Qed.

Lemma first_rejection_is_500_witness :
  (deleteAppointment 10%N (Clinic.world [Some "connection lost"])).1
  = Resolved (internalError "Failed to delete appointment" "connection lost")
  ∧ sameStores (Clinic.world [Some "connection lost"])
      (deleteAppointment 10%N (Clinic.world [Some "connection lost"])).2.
Proof.
  destruct (first_rejection_is_500 (Clinic.world [Some "connection lost"])
              "connection lost" []) as (_ & _ & _ & _ & _ & _ & Hd); [reflexivity|].
  apply Hd.
Defined.
